(** * BIDS demo notebook: a shallow embedding of [00_Scripts/BIDS_demo.ipynb]

    The notebook walks over the source recordings, derives a subject
    identifier from each parent folder name, copies the recording into a
    BIDS-style tree and writes two metadata files next to it (a channel table
    in TSV and a task document in JSON).

    Python values are embedded as follows.
    - [str] is a sequence of Unicode code points: [list N].
    - Exceptions are values of [pyexn]; fallible code lives in [res].
    - [pathlib.PurePosixPath] is a root string and a list of parts.
    - A [pandas.DataFrame] is an ordered list of named columns.
    - The [dict] handed to [json.dump] is an ordered key/value tree.
    - The file system is a pair of tables: the directories and the files. *)

From Stdlib Require Import List NArith Arith Bool Lia Ascii.
From Stdlib Require String DecimalString.
Import ListNotations String.StringSyntax.

Delimit Scope string_scope with string.

Set Implicit Arguments.

(** ** Python strings *)

Module PyStr.

Definition char := N.
Definition pystr := list char.

(** A literal of the notebook that only uses ASCII characters. *)
Definition py (s : String.string) : pystr :=
  List.map N_of_ascii (String.list_ascii_of_string s).

Arguments py s%_string.

Definition char_eqb (a b : char) : bool := N.eqb a b.

Fixpoint eqb (s t : pystr) : bool :=
  match s, t with
  | [], [] => true
  | a :: s', b :: t' => char_eqb a b && eqb s' t'
  | _, _ => false
  end.

(** [str.isspace] on one code point (CPython's [_PyUnicode_IsWhitespace]). *)
Definition isspace (c : char) : bool :=
  ((9 <=? c) && (c <=? 13)         (* \t \n \v \f \r *)
   || (28 <=? c) && (c <=? 32)     (* FS GS RS US and the blank *)
   || (c =? 133) || (c =? 160)     (* NEL, NBSP *)
   || (c =? 5760)                  (* U+1680 *)
   || (8192 <=? c) && (c <=? 8202) (* U+2000 .. U+200A *)
   || (c =? 8232) || (c =? 8233)   (* U+2028, U+2029 *)
   || (c =? 8239) || (c =? 8287)   (* U+202F, U+205F *)
   || (c =? 12288))%N.             (* U+3000 *)

Definition TAB : char := 9%N.
Definition UNDERSCORE : char := 95%N.
Definition HYPHEN : char := 45%N.
Definition SLASH : char := 47%N.
Definition ZERO : char := 48%N.
Definition DOT : char := 46%N.

(** [s.replace(old, new)] for one-character [old] and [new]. *)
Definition replace (old new : char) (s : pystr) : pystr :=
  List.map (fun c => if char_eqb c old then new else c) s.

(** [s.split()]: the maximal runs of non-whitespace characters.  [cur] is
    the run being read, most recent character first. *)
Fixpoint split_ws (cur : pystr) (s : pystr) : list pystr :=
  match s with
  | [] => match cur with [] => [] | _ => [rev cur] end
  | c :: s' =>
      if isspace c
      then match cur with
           | [] => split_ws [] s'
           | _ => rev cur :: split_ws [] s'
           end
      else split_ws (c :: cur) s'
  end.

Definition split (s : pystr) : list pystr := split_ws [] s.

(** [s.split(sep)] for a one-character [sep]: every separator cuts, empty
    pieces are kept, and the result is never empty. *)
Fixpoint split_on_aux (sep : char) (cur : pystr) (s : pystr) : list pystr :=
  match s with
  | [] => [rev cur]
  | c :: s' =>
      if char_eqb c sep
      then rev cur :: split_on_aux sep [] s'
      else split_on_aux sep (c :: cur) s'
  end.

Definition split_on (sep : char) (s : pystr) : list pystr :=
  split_on_aux sep [] s.

(** [s.rjust(width, fill)]. *)
Definition rjust (width : nat) (fill : char) (s : pystr) : pystr :=
  repeat fill (width - length s) ++ s.

(** [sep.join(xs)]. *)
Fixpoint join (sep : pystr) (xs : list pystr) : pystr :=
  match xs with
  | [] => []
  | [x] => x
  | x :: rest => x ++ sep ++ join sep rest
  end.

Definition isdigit (c : char) : bool := ((48 <=? c) && (c <=? 57))%N.

End PyStr.

Import PyStr.

(** ** Exceptions *)

Inductive pyexn : Type :=
| IndexError
| FileNotFoundError
| FileExistsError
| NotADirectoryError
| IsADirectoryError
| SameFileError
| ValueError
| UnicodeEncodeError.

Inductive res (A : Type) : Type :=
| Ok (a : A)
| Raise (e : pyexn).

Arguments Ok {A} a.
Arguments Raise {A} e.

Definition bind {A B : Type} (m : res A) (k : A -> res B) : res B :=
  match m with
  | Ok a => k a
  | Raise e => Raise e
  end.

Notation "x <- m ;; k" := (bind m (fun x => k))
  (at level 61, m at next level, right associativity).

(** [xs[0]]. *)
Definition item0 {A : Type} (xs : list A) : res A :=
  match xs with
  | x :: _ => Ok x
  | [] => Raise IndexError
  end.

(** [s[1:]]: slicing never raises. *)
Definition slice_from1 (s : pystr) : pystr := tl s.

(** ** Subject identifier *)

(** [pname = str(fpath.parent).split(splitter)[-1]] with [splitter = '/']. *)
Definition pname (parent : pystr) : pystr :=
  last (split_on SLASH parent) [].

(** [subID = pname.replace('_', '\t').replace('-', '\t').split()[0][1:].rjust(2, '0')] *)
Definition subID (pname : pystr) : res pystr :=
  tok <- item0 (split (replace HYPHEN TAB (replace UNDERSCORE TAB pname))) ;;
  Ok (rjust 2 ZERO (slice_from1 tok)).


(** ** pathlib.PurePosixPath *)

Module PurePath.

(** [root] is [''], ['/'] or ['//']; [names] are the components below it
    (pathlib's [parts] without the anchor). *)
Record Path : Type := mkPath { root : pystr; names : list pystr }.

Fixpoint lstrip (c : char) (s : pystr) : pystr :=
  match s with
  | x :: s' => if char_eqb x c then lstrip c s' else s
  | [] => []
  end.

(** [_PosixFlavour.splitroot]: exactly two leading slashes are kept as
    the root ['//'], any other number collapses to ['/']. *)
Definition splitroot (part : pystr) : pystr * pystr :=
  match part with
  | x :: _ =>
      if char_eqb x SLASH
      then let stripped := lstrip SLASH part in
           if Nat.eqb (length part - length stripped) 2
           then ([SLASH; SLASH], stripped)
           else ([SLASH], stripped)
      else ([], part)
  | [] => ([], part)
  end.

Definition keep_component (x : pystr) : bool :=
  negb (PyStr.eqb x []) && negb (PyStr.eqb x [DOT]).

(** [_PosixFlavour.parse_parts] on one argument. *)
Definition parse (part : pystr) : Path :=
  let '(r, rel) := splitroot part in
  mkPath r (filter keep_component (split_on SLASH rel)).

(** [self / key] for a [str] key ([join_parsed_parts]). *)
Definition truediv (p : Path) (key : pystr) : Path :=
  let q := parse key in
  match root q with
  | [] => mkPath (root p) (names p ++ names q)
  | _ => q
  end.

(** [str(p)]. *)
Definition str (p : Path) : pystr :=
  match root p, names p with
  | [], [] => [DOT]
  | r, ns => r ++ join [SLASH] ns
  end.

(** [p.parent]. *)
Definition parent (p : Path) : Path :=
  mkPath (root p) (removelast (names p)).

Fixpoint names_eqb (xs ys : list pystr) : bool :=
  match xs, ys with
  | [], [] => true
  | x :: xs', y :: ys' => PyStr.eqb x y && names_eqb xs' ys'
  | _, _ => false
  end.

Definition eqb (p q : Path) : bool :=
  PyStr.eqb (root p) (root q) && names_eqb (names p) (names q).

End PurePath.

Import PurePath.

Notation "p // k" := (truediv p k) (at level 40, left associativity).

(** ** File system *)

Module FS.

Definition bytes := list N.

(** No symbolic or hard links and no resolution of ['..']: a path names a
    file by its parsed parts.  A path without names is the root or the
    working directory, which always exists.  Names are compared exactly
    (a case-sensitive file system), there is no limit on the length of a
    name or of a path, no permissions and no full disk: the only errors
    are the ones about what exists. *)
Record t : Type := mk { dirs : Path -> bool; files : Path -> option bytes }.

Definition is_dir (fs : t) (p : Path) : bool :=
  match names p with
  | [] => true
  | _ => dirs fs p
  end.

Definition is_file (fs : t) (p : Path) : bool :=
  match files fs p with Some _ => true | None => false end.

Definition add_dir (fs : t) (p : Path) : t :=
  mk (fun q => PurePath.eqb q p || dirs fs q) (files fs).

Definition put (fs : t) (p : Path) (b : bytes) : t :=
  mk (dirs fs) (fun q => if PurePath.eqb q p then Some b else files fs q).

(** [os.mkdir(p)]. *)
Definition os_mkdir (fs : t) (p : Path) : res t :=
  match names p with
  | [] => Raise FileExistsError
  | _ =>
      if is_file fs (parent p) then Raise NotADirectoryError
      else if negb (is_dir fs (parent p)) then Raise FileNotFoundError
      else if is_dir fs p || is_file fs p then Raise FileExistsError
      else Ok (add_dir fs p)
  end.

(** [p.mkdir(parents=False, exist_ok=True)]. *)
Definition mkdir_exist_ok (fs : t) (p : Path) : res t :=
  match os_mkdir fs p with
  | Ok fs' => Ok fs'
  | Raise FileNotFoundError => Raise FileNotFoundError
  | Raise e => if is_dir fs p then Ok fs else Raise e
  end.

(** [p.mkdir(parents=True, exist_ok=True)] for [p] with root [r] and
    names [rev rn]: on a missing parent the parent is made first, then
    the directory itself. *)
Fixpoint mkdir_rec (r : pystr) (rn : list pystr) (fs : t) : res t :=
  let p := mkPath r (rev rn) in
  match os_mkdir fs p with
  | Ok fs' => Ok fs'
  | Raise FileNotFoundError =>
      match rn with
      | [] => Raise FileNotFoundError
      | _ :: rn' =>
          fs1 <- mkdir_rec r rn' fs ;;
          mkdir_exist_ok fs1 p
      end
  | Raise e => if is_dir fs p then Ok fs else Raise e
  end.

Definition mkdir (p : Path) (fs : t) : res t :=
  mkdir_rec (root p) (rev (names p)) fs.

(** [open(p, 'rb').read()]. *)
Definition read (fs : t) (p : Path) : res bytes :=
  if is_dir fs p then Raise IsADirectoryError
  else match files fs p with
       | Some b => Ok b
       | None => Raise FileNotFoundError
       end.

(** [open(p, 'wb')] followed by writing [b]: the file is created or
    truncated.  Only [p] and its immediate parent are looked at, which
    decides the error on trees where nothing exists below a regular file
    or below a missing directory; a name too long for the system, which
    the system refuses, is outside the model. *)
Definition write (fs : t) (p : Path) (b : bytes) : res t :=
  if is_dir fs p then Raise IsADirectoryError
  else if is_file fs (parent p) then Raise NotADirectoryError
  else if negb (is_dir fs (parent p)) then Raise FileNotFoundError
  else Ok (put fs p b).

(** [shutil.copyfile(src, dst)]. *)
Definition copyfile (src dst : Path) (fs : t) : res t :=
  if PurePath.eqb src dst then Raise SameFileError
  else
    b <- read fs src ;;
    write fs dst b.

End FS.

(** ** Step 2 of the notebook: copying the recordings *)

Definition RAWDATA : pystr := py "02_Rawdata".

(** ['sub-{}'.format(subID)] *)
Definition sub_dir (subID : pystr) : pystr := py "sub-" ++ subID.

(** ['sub-{}_task-'.format(subID) + taskname + suffix] *)
Definition filename (subID taskname suffix : pystr) : pystr :=
  py "sub-" ++ subID ++ py "_task-" ++ taskname ++ suffix.

(** [rawfile] of the behavioural loop. *)
Definition rawfile_beh (ROOTPATH : Path) (taskname subID : pystr) : Path :=
  ROOTPATH // RAWDATA // sub_dir subID // py "beh"
           // filename subID taskname (py "_beh.mat").

(** [rawfile] of the EEG loop. *)
Definition rawfile_eeg (ROOTPATH : Path) (taskname subID : pystr) : Path :=
  ROOTPATH // RAWDATA // sub_dir subID // py "eeg"
           // filename subID taskname (py "_eeg.mat").

(** [metadatafile] of the channel-table loop. *)
Definition metadatafile_tsv (ROOTPATH : Path) (taskname subID : pystr) : Path :=
  ROOTPATH // RAWDATA // sub_dir subID // py "eeg"
           // filename subID taskname (py "_channels.tsv").

(** [metadatafile] of the task-document loop. *)
Definition metadatafile_json (ROOTPATH : Path) (taskname subID : pystr) : Path :=
  ROOTPATH // RAWDATA // sub_dir subID // py "eeg"
           // filename subID taskname (py "_eeg.json").

(** The subject of a source file: lines [pname = ...] and [subID = ...]. *)
Definition subject_of (fpath : Path) : res pystr :=
  subID (pname (str (parent fpath))).

(** Body of [for fpath in behFiles]. *)
Definition beh_body (ROOTPATH : Path) (taskname : pystr)
    (fpath : Path) (fs : FS.t) : res FS.t :=
  s <- subject_of fpath ;;
  fs1 <- FS.mkdir (ROOTPATH // RAWDATA // sub_dir s // py "beh") fs ;;
  FS.copyfile fpath (rawfile_beh ROOTPATH taskname s) fs1.

(** Body of [for fpath in eegFiles]. *)
Definition eeg_body (ROOTPATH : Path) (taskname : pystr)
    (fpath : Path) (fs : FS.t) : res FS.t :=
  s <- subject_of fpath ;;
  fs1 <- FS.mkdir (ROOTPATH // RAWDATA // sub_dir s // py "eeg") fs ;;
  FS.copyfile fpath (rawfile_eeg ROOTPATH taskname s) fs1.

(** A [for] loop whose body may raise: the first exception ends the run. *)
Fixpoint for_each {A : Type} (body : A -> FS.t -> res FS.t)
    (xs : list A) (fs : FS.t) : res FS.t :=
  match xs with
  | [] => Ok fs
  | x :: rest => fs1 <- body x fs ;; for_each body rest fs1
  end.

(** ** Text files *)

(** [text.encode('utf-8')]: lone surrogates cannot be encoded. *)
Definition utf8_char (c : char) : res FS.bytes :=
  (if c <? 128 then Ok [c]
   else if c <? 2048 then Ok [192 + c / 64; 128 + c mod 64]
   else if (55296 <=? c) && (c <=? 57343) then Raise UnicodeEncodeError
   else if c <? 65536
        then Ok [224 + c / 4096; 128 + (c / 64) mod 64; 128 + c mod 64]
   else Ok [240 + c / 262144; 128 + (c / 4096) mod 64;
            128 + (c / 64) mod 64; 128 + c mod 64])%N.

Fixpoint utf8 (s : pystr) : res FS.bytes :=
  match s with
  | [] => Ok []
  | c :: s' => b <- utf8_char c ;; bs <- utf8 s' ;; Ok (b ++ bs)
  end.

(** [open(p, 'w', encoding='utf-8')] followed by writing [text]; the file is
    opened (created or truncated) before the text is encoded. *)
Definition write_text (p : Path) (text : pystr) (fs : FS.t) : res FS.t :=
  fs1 <- FS.write fs p [] ;;
  b <- utf8 text ;;
  Ok (FS.put fs1 p b).

(** ** pandas.DataFrame *)

Module Frame.
Section WithFloat.

(** The floats of [np.empty], and how [to_csv] prints one of them. *)
Variable float : Type.
Variable float_str : float -> pystr.

Inductive cell : Type :=
| CStr (s : pystr)
| CInt (n : N)
| CFloat (x : float)
| CNaN.

(** Rows are labelled [0 .. nrows-1]; columns keep their order. *)
Record DataFrame : Type :=
  mkFrame { nrows : nat; columns : list (pystr * list cell) }.

(** [np.empty([r, c])]: an [r] by [c] array of whatever was in memory. *)
Record ndarray : Type :=
  mkArray { shape0 : nat; shape1 : nat; at_ : nat -> nat -> float }.

Definition np_empty (memory : nat -> nat -> float) (r c : nat) : ndarray :=
  mkArray r c memory.

Fixpoint frame_columns (a : ndarray) (j : nat) (names : list pystr)
    : list (pystr * list cell) :=
  match names with
  | [] => []
  | n :: rest =>
      (n, List.map (fun i => CFloat (at_ a i j)) (seq 0 (shape0 a)))
        :: frame_columns a (S j) rest
  end.

(** [pd.DataFrame(data = a, columns = names)] *)
Definition DataFrame_of (a : ndarray) (names : list pystr) : res DataFrame :=
  if Nat.eqb (shape1 a) (length names)
  then Ok (mkFrame (shape0 a) (frame_columns a 0 names))
  else Raise ValueError.

(** The right-hand sides the notebook assigns to a column: a scalar, or
    [pd.DataFrame([[x0], [x1], ...])], one column with rows [0 .. n-1]. *)
Inductive value : Type :=
| Scalar (c : cell)
| Frame1 (rows : list cell).

(** A scalar is broadcast to every row; a frame is aligned on the row
    labels, rows it does not have become NaN and rows the target does not
    have are dropped.  The cells keep the kind they were given: the
    conversion of an integer column to floats, which pandas makes when the
    alignment puts a NaN in it, is not modelled; the notebook assigns
    frames that have a row for every row of the table. *)
Definition column_of (n : nat) (v : value) : list cell :=
  match v with
  | Scalar c => repeat c n
  | Frame1 rows => List.map (fun i => nth i rows CNaN) (seq 0 n)
  end.

Fixpoint has_column (name : pystr) (cols : list (pystr * list cell)) : bool :=
  match cols with
  | [] => false
  | (k, _) :: rest => PyStr.eqb k name || has_column name rest
  end.

Fixpoint set_column (name : pystr) (col : list cell)
    (cols : list (pystr * list cell)) : list (pystr * list cell) :=
  match cols with
  | [] => []
  | (k, old) :: rest =>
      if PyStr.eqb k name then (k, col) :: rest
      else (k, old) :: set_column name col rest
  end.

(** [df[name]] as an option. *)
Fixpoint get_column (name : pystr) (cols : list (pystr * list cell))
    : option (list cell) :=
  match cols with
  | [] => None
  | (k, col) :: rest =>
      if PyStr.eqb k name then Some col else get_column name rest
  end.

(** [df.name = v].  When [name] is a column this is [df[name] = v]; when
    it is not, Python stores an attribute and the table is untouched.
    None of the twelve column names of the notebook is an attribute of
    the class itself; for a name the class defines ([columns], [index],
    [shape], ...) pandas does something else, which is outside the
    model. *)
Definition setattr (df : DataFrame) (name : pystr) (v : value) : DataFrame :=
  if has_column name (columns df)
  then mkFrame (nrows df)
         (set_column name (column_of (nrows df) v) (columns df))
  else df.

(** *** [to_csv] *)

Definition QUOTE : char := 34%N.
Definition NEWLINE : char := 10%N.

(** [csv.QUOTE_MINIMAL]: a field is quoted when it holds the delimiter,
    the quote character or a character of the line terminator. *)
Definition special (sep : char) (c : char) : bool :=
  char_eqb c sep || char_eqb c QUOTE || char_eqb c NEWLINE.

Fixpoint double_quotes (s : pystr) : pystr :=
  match s with
  | [] => []
  | c :: s' =>
      if char_eqb c QUOTE then QUOTE :: QUOTE :: double_quotes s'
      else c :: double_quotes s'
  end.

Definition csv_field (sep : char) (s : pystr) : pystr :=
  if existsb (special sep) s
  then QUOTE :: double_quotes s ++ [QUOTE]
  else s.

(** One record; a record made of a single empty field is written quoted. *)
Definition csv_row (sep : char) (fields : list pystr) : pystr :=
  match fields with
  | [ [] ] => [QUOTE; QUOTE; NEWLINE]
  | _ => join [sep] (List.map (csv_field sep) fields) ++ [NEWLINE]
  end.

Definition str_of_N (n : N) : pystr :=
  List.map N_of_ascii
    (String.list_ascii_of_string
       (DecimalString.NilZero.string_of_uint (N.to_uint n))).

Definition cell_str (na_rep : pystr) (c : cell) : pystr :=
  match c with
  | CStr s => s
  | CInt n => str_of_N n
  | CFloat x => float_str x
  | CNaN => na_rep
  end.

Definition row_cells (df : DataFrame) (i : nat) : list cell :=
  List.map (fun col => nth i (snd col) CNaN) (columns df).

(** The table of strings [to_csv] writes: the header, then the rows. *)
Definition csv_table (na_rep : pystr) (df : DataFrame) : list (list pystr) :=
  List.map fst (columns df)
    :: List.map (fun i => List.map (cell_str na_rep) (row_cells df i))
         (seq 0 (nrows df)).

(** [df.to_csv(sep = sep, na_rep = na_rep, index = False)] as text. *)
Definition to_csv (sep : char) (na_rep : pystr) (df : DataFrame) : pystr :=
  concat (List.map (csv_row sep) (csv_table na_rep df)).

End WithFloat.
End Frame.

Arguments Frame.CStr {float} s.
Arguments Frame.CInt {float} n.
Arguments Frame.CNaN {float}.

(** ** Step 3 of the notebook: the channel table *)

Module Channels.
Section WithFloat.

Variable float : Type.
Variable float_str : float -> pystr.

Import Frame.

Definition nchannels : nat := 6.
Definition ncolumns : nat := 12.

Definition columnNames : list pystr :=
  [py "name"; py "type"; py "units"; py "low_cutoff"; py "high_cutoff";
   py "reference"; py "group"; py "sampling_frequency"; py "description";
   py "notch"; py "status"; py "Status_description"].

(** [pd.DataFrame([[x0], [x1], ...])] for string entries. *)
Definition frame1 (xs : list pystr) : value float :=
  Frame1 (List.map (fun x => CStr x) xs).

Definition scalar_str (x : pystr) : value float := Scalar (CStr x).
Definition scalar_int (n : N) : value float := Scalar (CInt n).

(** The micro sign of the notebook is U+03BC. *)
Definition microvolt : pystr := [956%N; 86%N].

(** The [if subID == "01": ... elif subID == "02": ... else: ...] block. *)
Definition set_status (subID : pystr) (df : DataFrame float)
    : DataFrame float :=
  if PyStr.eqb subID (py "01") then
    let df := setattr df (py "status")
      (frame1 [py "GOOD"; py "BAD"; py "GOOD"; py "GOOD"; py "GOOD";
               py "GOOD"]) in
    setattr df (py "Status_description")
      (frame1 [py "n/a";
               py "Channel exessively noisy through, suspect broken electrode";
               py "n/a"; py "n/a"; py "n/a"; py "n/a"])
  else if PyStr.eqb subID (py "02") then
    let df := setattr df (py "status")
      (frame1 [py "OK"; py "OK"; py "OK"; py "OK"; py "OK"; py "OK"]) in
    setattr df (py "Status_description")
      (scalar_str
         (py "Regular artifact throughout, suspect electrical interference"))
  else
    let df := setattr df (py "status")
      (frame1 [py "GOOD"; py "GOOD"; py "GOOD"; py "GOOD"; py "GOOD";
               py "GOOD"]) in
    setattr df (py "Status_description")
      (frame1 [py "n/a"; py "n/a"; py "n/a"; py "n/a"; py "n/a"; py "n/a"]).

(** The frame built for one subject in the loop of step 3; [datempty] is
    made once, before the loop. *)
Definition MetaData (datempty : ndarray float) (subID : pystr)
    : res (DataFrame float) :=
  df <- DataFrame_of datempty columnNames ;;
  let df := setattr df (py "name")
    (frame1 [py "Iz"; py "Oz"; py "POz"; py "O1"; py "O2"; py "TRIG"]) in
  let df := setattr df (py "type")
    (frame1 [py "EEG"; py "EEG"; py "EEG"; py "EEG"; py "EEG"; py "TRIG"]) in
  let df := setattr df (py "units") (scalar_str microvolt) in
  let df := setattr df (py "low_cutoff") (scalar_int 100) in
  let df := setattr df (py "high_cutoff") (scalar_int 1) in
  let df := setattr df (py "reference")
    (frame1 [py "ear"; py "ear"; py "ear"; py "ear"; py "ear"; py "n/a"]) in
  let df := setattr df (py "group") (scalar_int 1) in
  let df := setattr df (py "sampling_frequency") (scalar_int 1200) in
  let df := setattr df (py "description") (scalar_str (py "n/a")) in
  let df := setattr df (py "notch") (scalar_int 50) in
  Ok (set_status subID df).

(** The text [MetaData.to_csv(metadatafile, sep = '\t', na_rep = 'n/a',
    index = False)] writes. *)
Definition tsv_text (df : DataFrame float) : pystr :=
  to_csv float_str TAB (py "n/a") df.

(** Body of [for fpath in eegFiles] in step 3. *)
Definition tsv_body (memory : nat -> nat -> float) (ROOTPATH : Path)
    (taskname : pystr) (fpath : Path) (fs : FS.t) : res FS.t :=
  s <- subject_of fpath ;;
  df <- MetaData (np_empty memory nchannels ncolumns) s ;;
  write_text (metadatafile_tsv ROOTPATH taskname s) (tsv_text df) fs.

End WithFloat.
End Channels.

(** ** Step 4 of the notebook: the task document *)

Module Json.

(** The values the notebook puts in its [dict]: strings, integers and
    nested dictionaries, which keep the order of insertion. *)
Inductive json : Type :=
| JStr (s : pystr)
| JInt (n : N)
| JObj (items : members)
with members : Type :=
| MNil
| MCons (key : pystr) (v : json) (rest : members).

Definition hex_digit (d : N) : char :=
  (if d <? 10 then 48 + d else 87 + d)%N.

(** ['\\u{0:04x}'.format(n)] for [n < 0x10000]. *)
Definition u_escape (n : N) : pystr :=
  [92; 117; hex_digit (n / 4096 mod 16); hex_digit (n / 256 mod 16);
   hex_digit (n / 16 mod 16); hex_digit (n mod 16)]%N.

(** One character under [py_encode_basestring_ascii]. *)
Definition escape_char (c : char) : pystr :=
  (if c =? 34 then [92; 34]          (* the quote *)
   else if c =? 92 then [92; 92]     (* the backslash *)
   else if c =? 10 then [92; 110]    (* \n *)
   else if c =? 13 then [92; 114]    (* \r *)
   else if c =? 9 then [92; 116]     (* \t *)
   else if c =? 12 then [92; 102]    (* \f *)
   else if c =? 8 then [92; 98]      (* \b *)
   else if (32 <=? c) && (c <=? 126) then [c]
   else if c <? 65536 then u_escape c
   else let n := c - 65536 in
        u_escape (N.lor 55296 (N.land (N.shiftr n 10) 1023))
          ++ u_escape (N.lor 56320 (N.land n 1023)))%N.

Definition encode_str (s : pystr) : pystr :=
  [34%N] ++ flat_map escape_char s ++ [34%N].

Definition newline_indent (indent level : nat) : pystr :=
  10%N :: repeat 32%N (indent * level).

(** [_iterencode] / [_iterencode_dict] of [json.encoder] with an indent:
    the item separator is [','] and the key separator [': ']. *)
Fixpoint encode (indent level : nat) (v : json) : pystr :=
  match v with
  | JStr s => encode_str s
  | JInt n => Frame.str_of_N n
  | JObj MNil => py "{}"
  | JObj items =>
      let inner := newline_indent indent (S level) in
      py "{" ++ inner
        ++ join (py "," ++ inner) (encode_items indent (S level) items)
        ++ newline_indent indent level ++ py "}"
  end
with encode_items (indent level : nat) (m : members) : list pystr :=
  match m with
  | MNil => []
  | MCons k x rest =>
      (encode_str k ++ py ": " ++ encode indent level x)
        :: encode_items indent level rest
  end.

(** [json.dumps(v, indent = indent)] *)
Definition dumps (indent : nat) (v : json) : pystr := encode indent 0 v.



End Json.

Module Task.

Import Json.

(** [dict(k1 = v1, k2 = v2, ...)] *)
Definition kw (k : String.string) (v : json) : pystr * json := (py k, v).
Arguments kw k%_string v.

Definition dict (kws : list (pystr * json)) : members :=
  fold_right (fun kv rest => MCons (fst kv) (snd kv) rest) MNil kws.

(** The [dict] of step 4. *)
Definition metadata (taskname : pystr) : members := dict [
  kw "SubjectArtefactDescription" (JStr (py "Strange Regular artifact - visually looks to be at about 0.5Hz, but resistant to filtering. Suspect this is some sort of electrical artifact in the room - testing was not perfomed in a farraday cage. Should not effect FFT based anayses"));
  kw "TaskName" (JStr taskname);
  kw "SamplingFrequency" (JInt 1200);
  kw "PowerLineFrequency" (JInt 50);
  kw "SoftwareFilters" (JStr (py "n/a"));
  kw "DCOffsetCorrection" (JStr (py "n/a"));
  kw "EEGReference" (JStr (py "ear"));
  kw "EEGGround" (JStr (py "Cz"));
  kw "HardwareFilters" (JObj (dict [
    kw "highpassfilter" (JObj (dict [kw "CutoffFrequency" (JInt 1)]));
    kw "lowpassfilter" (JObj (dict [kw "CutoffFrequency" (JInt 100)]))]));
  kw "Manufacturer" (JStr (py "g.tec"));
  kw "ManufacturersModelName" (JStr (py "g.USBamp"));
  kw "SoftwareVersions" (JStr (py "g.tec API functions running in MATLAB 2017a"));
  kw "InstitutionName" (JStr (py "Queensland Brain Institute, The University of Queensland"));
  kw "InstitutionAddress" (JStr (py "Building 79, The University of Queensland, St Lucia, Australia, 4072"));
  kw "EEGChannelCount" (JStr (py "5"));
  kw "TriggerChannelCount" (JStr (py "1"));
  kw "RecordingDuration" (JStr (py "2939.0933"));
  kw "RecordingType" (JStr (py "continuous"));
  kw "TaskDescription" (JStr (py "We set out to collect an EEG dataset to use to train various machine learning algorithms to detect the focus of feature-selective attention. Subjects were cued to attend to attend to either black or white moving dots, and respond to brief periods of coherent motion in the cued colour. The display consisted of either both black and white dots, or only the cued colour in randomly interleaved trials. The field of moving dots in the uncued colour never moved coherently, and should thus not have captured attention. The fields of dots flickered at 6 and 7.5 Hz. Colour and frequency were fully counterbalanced. Each trial consisted of a 1 second cue followed by 15 s of the dot motion stimulus. "));
  kw "Instructions" (JStr (py "Participants were informed of the purpose of the study, and instructed to press the arrow keys corresponding to the direction of any epoch of coherent motion they saw in the cued colour."))].

(** The text [json.dump(metadata, f, indent=2)] writes. *)
Definition json_text (taskname : pystr) : pystr :=
  dumps 2 (JObj (metadata taskname)).

(** Body of [for fpath in eegFiles] in step 4.  The file is opened in text
    mode with the encoding of the locale, taken to be UTF-8. *)
Definition json_body (ROOTPATH : Path) (taskname : pystr)
    (fpath : Path) (fs : FS.t) : res FS.t :=
  s <- subject_of fpath ;;
  write_text (metadatafile_json ROOTPATH taskname s) (json_text taskname) fs.

End Task.

(** ** The notebook, cell after cell *)

Module Notebook.
Section WithFloat.

Variable float : Type.
Variable float_str : float -> pystr.

(** [eegFiles] and [behFiles] are the sorted results of the two globs;
    [memory] is what [np.empty] finds. *)
Definition run (memory : nat -> nat -> float) (ROOTPATH : Path)
    (taskname : pystr) (behFiles eegFiles : list Path) (fs : FS.t)
    : res FS.t :=
  fs1 <- for_each (beh_body ROOTPATH taskname) behFiles fs ;;
  fs2 <- for_each (eeg_body ROOTPATH taskname) eegFiles fs1 ;;
  fs3 <- for_each (Channels.tsv_body float_str memory ROOTPATH taskname)
           eegFiles fs2 ;;
  for_each (Task.json_body ROOTPATH taskname) eegFiles fs3.

End WithFloat.
End Notebook.

(** ** Notions used to state the properties *)

Module Spec.

(** The separators of a folder name: underscore and hyphen. *)
Definition is_sep (c : char) : bool :=
  char_eqb c UNDERSCORE || char_eqb c HYPHEN.

(** What ends a token of a folder name: a separator or whitespace. *)
Definition is_delim (c : char) : bool := is_sep c || isspace c.

Fixpoint skip_delims (s : pystr) : pystr :=
  match s with
  | c :: s' => if is_delim c then skip_delims s' else s
  | [] => []
  end.

Fixpoint take_token (s : pystr) : pystr :=
  match s with
  | c :: s' => if is_delim c then [] else c :: take_token s'
  | [] => []
  end.

(** The first token of a folder name: the longest run of characters that
    are not delimiters, after the leading delimiters; none when the name
    holds delimiters only. *)
Definition first_token (s : pystr) : option pystr :=
  match skip_delims s with
  | [] => None
  | t => Some (take_token t)
  end.

(** What may follow the first token: nothing, or a delimiter and then
    anything. *)
Definition trailing (rest : pystr) : bool :=
  match rest with
  | [] => true
  | d :: _ => is_delim d
  end.

(** Two names that differ only in which separator they use where. *)
Definition same_up_to_separators (s t : pystr) : Prop :=
  Forall2 (fun a b => a = b \/ (is_sep a = true /\ is_sep b = true)) s t.

(** One character after [.replace('_', '\\t').replace('-', '\\t')]. *)
Definition tabbed (c : char) : char :=
  if char_eqb (if char_eqb c UNDERSCORE then TAB else c) HYPHEN
  then TAB
  else if char_eqb c UNDERSCORE then TAB else c.

Definition no_slash (s : pystr) : bool :=
  forallb (fun c => negb (char_eqb c SLASH)) s.

(** A string that does not start with a slash: as an operand of [/] it
    extends the path on its left. *)
Definition relative (s : pystr) : bool :=
  match s with
  | c :: _ => negb (char_eqb c SLASH)
  | [] => true
  end.

(** A string that is one path component. *)
Definition component (s : pystr) : bool := no_slash s && keep_component s.

(** The four artifacts the notebook places in the output tree. *)
Inductive artifact : Type :=
| BehRecording
| EegRecording
| ChannelTable
| TaskDocument.

Definition modality_dir (a : artifact) : pystr :=
  match a with
  | BehRecording => py "beh"
  | _ => py "eeg"
  end.

Definition suffix (a : artifact) : pystr :=
  match a with
  | BehRecording => py "beh.mat"
  | EegRecording => py "eeg.mat"
  | ChannelTable => py "channels.tsv"
  | TaskDocument => py "eeg.json"
  end.

(** The path the notebook computes for each artifact. *)
Definition destination (ROOTPATH : Path) (taskname subID : pystr)
    (a : artifact) : Path :=
  match a with
  | BehRecording => rawfile_beh ROOTPATH taskname subID
  | EegRecording => rawfile_eeg ROOTPATH taskname subID
  | ChannelTable => metadatafile_tsv ROOTPATH taskname subID
  | TaskDocument => metadatafile_json ROOTPATH taskname subID
  end.

(** [sub-S/<dir>/sub-S_task-<TaskName>_<suffix>] as one string. *)
Definition canonical_tail (subID dir taskname suff : pystr) : pystr :=
  py "sub-" ++ subID ++ py "/" ++ dir ++ py "/"
    ++ py "sub-" ++ subID ++ py "_task-" ++ taskname ++ py "_" ++ suff.

(** A character below 128: UTF-8 writes it as the byte of the same value. *)
Definition ascii_only (s : pystr) : bool := forallb (fun c => c <? 128)%N s.

(** The text of the task document before and after the encoded task
    name: with an empty task name the value of TaskName is the two quotes
    at positions 287 and 288. *)
Definition json_head : pystr := firstn 287 (Task.json_text []).
Definition json_tail : pystr := skipn 289 (Task.json_text []).

(** One line of a tab-separated file in which no field needs quoting. *)
Definition plain_row (fields : list pystr) : pystr :=
  join [TAB] fields ++ [10%N].

(** The first ten cells of the row of an EEG channel and of the trigger
    channel: name, type, units, low_cutoff, high_cutoff, reference, group,
    sampling_frequency, description, notch. *)
Definition eeg_defaults (name : pystr) : list pystr :=
  [name; py "EEG"; Channels.microvolt; py "100"; py "1"; py "ear"; py "1";
   py "1200"; py "n/a"; py "50"].

Definition trig_defaults (name : pystr) : list pystr :=
  [name; py "TRIG"; Channels.microvolt; py "100"; py "1"; py "n/a"; py "1";
   py "1200"; py "n/a"; py "50"].

Definition template_rows : list (list pystr) :=
  [eeg_defaults (py "Iz"); eeg_defaults (py "Oz"); eeg_defaults (py "POz");
   eeg_defaults (py "O1"); eeg_defaults (py "O2"); trig_defaults (py "TRIG")].

(** Column [j] of the rows of an emitted table. *)
Definition emitted_column (j : nat) (rows : list (list pystr)) : list pystr :=
  List.map (fun r => nth j r []) rows.

(** Making directories leaves the files alone, and turns no file into a
    directory. *)
Definition keeps_files (fs fs' : FS.t) : Prop :=
  FS.files fs' = FS.files fs
  /\ forall q, FS.is_file fs q = true -> FS.is_dir fs' q = FS.is_dir fs q.

End Spec.

Import Spec.

(** ** A small tree to run the notebook on *)

Module Sample.

Definition ROOTPATH : Path := parse (py "/data/study").
Definition taskname : pystr := py "Demo".

Definition eeg_S1 : Path :=
  parse (py "/data/study/01_Sourcedata/S1_x/eeg001.mat").
Definition eeg_S2 : Path :=
  parse (py "/data/study/01_Sourcedata/S2_y/eeg001.mat").

Definition directories : list Path :=
  List.map parse
    [py "/data"; py "/data/study"; py "/data/study/01_Sourcedata";
     py "/data/study/01_Sourcedata/S1_x"; py "/data/study/01_Sourcedata/S2_y"].

(** The source tree: two recordings, no output yet. *)
Definition source_tree : FS.t :=
  FS.mk (fun p => existsb (PurePath.eqb p) directories)
        (fun p => if PurePath.eqb p eeg_S1 then Some [1; 2; 3]%N
                  else if PurePath.eqb p eeg_S2 then Some [4; 5]%N
                  else None).

(** The same tree once the output directories of both subjects exist and
    an earlier run has left a recording for subject 01. *)
Definition rerun_tree : FS.t :=
  FS.mk (fun p => existsb (PurePath.eqb p)
                    (directories
                       ++ List.map parse
                            [py "/data/study/02_Rawdata";
                             py "/data/study/02_Rawdata/sub-01";
                             py "/data/study/02_Rawdata/sub-01/eeg";
                             py "/data/study/02_Rawdata/sub-02";
                             py "/data/study/02_Rawdata/sub-02/eeg"]))
        (fun p => if PurePath.eqb p (rawfile_eeg ROOTPATH taskname (py "01"))
                  then Some [9; 9; 9; 9]%N
                  else FS.files source_tree p).

End Sample.

(** ** Further notions *)

Module Notions.

(** The roots [parse] can produce. *)
Definition valid_root (r : pystr) : bool :=
  PyStr.eqb r [] || PyStr.eqb r [SLASH] || PyStr.eqb r [SLASH; SLASH].

(** The directory in which the globs look for recordings. *)
Definition SOURCEDATA : pystr := py "01_Sourcedata".


(** [q] lies in the tree below [base] (or is [base] itself), name by
    name: the names of [base] are the first names of [q].  Nothing is
    resolved: this says where the file is only for paths without ['..'],
    see [plain_path]. *)
Definition under (base q : Path) : Prop :=
  root q = root base /\ exists rest, names q = names base ++ rest.

(** An absolute path that is its own resolution: below the root ['/'],
    every name is one component (not empty, without a slash, not ['.'])
    and none is ['..']. *)
Definition plain_path (p : Path) : bool :=
  PyStr.eqb (root p) [SLASH]
  && forallb (fun n => component n && negb (PyStr.eqb n (py ".."))) (names p).

(** Two source folders that stand for the same subject. *)
Module Clash.

Definition first : Path :=
  parse (py "/data/study/01_Sourcedata/S1_x/eeg001.mat").
Definition second : Path :=
  parse (py "/data/study/01_Sourcedata/s1-retest/eeg001.mat").

Definition tree : FS.t :=
  FS.mk (fun p => existsb (PurePath.eqb p)
                    (List.map parse
                       [py "/data"; py "/data/study";
                        py "/data/study/01_Sourcedata";
                        py "/data/study/01_Sourcedata/S1_x";
                        py "/data/study/01_Sourcedata/s1-retest"]))
        (fun p => if PurePath.eqb p first then Some [1; 1]%N
                  else if PurePath.eqb p second then Some [2; 2; 2]%N
                  else None).

End Clash.


(** A directory that exists below something that exists: what
    [mkdir(parents=True, exist_ok=True)] leaves behind. *)
Definition settled (fs : FS.t) (p : Path) : Prop :=
  FS.is_dir fs p = true
  /\ (FS.is_file fs (parent p) = true \/ FS.is_dir fs (parent p) = true).


(** Every column of a frame has one cell per row. *)
Definition rectangular {float : Type} (df : Frame.DataFrame float) : Prop :=
  Forall (fun col => length (snd col) = Frame.nrows df) (Frame.columns df).

(** A run of attribute assignments [df.n1 = v1; df.n2 = v2; ...]. *)
Definition assign_all {float : Type} (df : Frame.DataFrame float)
    (l : list (pystr * Frame.value float)) : Frame.DataFrame float :=
  fold_left (fun d nv => Frame.setattr d (fst nv) (snd nv)) l df.

(** An assignment of the kind the notebook makes on a table of [n] rows:
    to one of the twelve columns, of a scalar or of a one-column frame
    that has a row for every row of the table. *)
Definition notebook_assignment {float : Type} (n : nat)
    (nv : pystr * Frame.value float) : Prop :=
  In (fst nv) Channels.columnNames
  /\ match snd nv with
     | Frame.Scalar _ => True
     | Frame.Frame1 rows => length rows = n /\ n <> 0
     end.

(** Reading a tab-separated text back: the lines, without the empty piece
    after the last line terminator, cut at the tabs. *)
Definition parse_tsv (text : pystr) : list (list pystr) :=
  List.map (split_on TAB) (removelast (split_on 10%N text)).

(** No field of the table holds a tab, a quote or a line feed. *)
Definition plain_table (t : list (list pystr)) : bool :=
  forallb (forallb (fun f => negb (existsb (Frame.special TAB) f))) t.

(** A printable ASCII character other than the quote and the backslash. *)
Definition json_plain (c : char) : bool :=
  ((32 <=? c) && (c <=? 126) && negb (c =? 34) && negb (c =? 92))%N.


(** The number of line feeds of a text. *)
Definition line_feeds (s : pystr) : nat := count_occ N.eq_dec s 10%N.


(** The rows of a channel table whose first ten columns are given: row by
    row, the ten cells, then the status and its description. *)
Fixpoint with_status (rows : list (list pystr)) (status descr : list pystr)
    : list (list pystr) :=
  match rows, status, descr with
  | r :: rows', s :: status', d :: descr' =>
      (r ++ [s; d]) :: with_status rows' status' descr'
  | _, _, _ => []
  end.

(** The channel table with the template in its first ten columns: the
    header, then the six rows. *)
Definition channel_table (status descr : list pystr) : list (list pystr) :=
  Channels.columnNames :: with_status template_rows status descr.

(** A table written line by line, the fields of a line joined by tabs. *)
Definition render (t : list (list pystr)) : pystr :=
  concat (List.map plain_row t).

End Notions.

Import Notions.

(** * Properties *)

(** The notebook on the sample tree: both recordings are copied byte for
    byte and each gets its channel table and its task document. *)
Example run_on_sample :
  match Notebook.run (fun _ : unit => py "0.0") (fun _ _ => tt)
          Sample.ROOTPATH Sample.taskname [] [Sample.eeg_S1; Sample.eeg_S2]
          Sample.source_tree with
  | Ok fs =>
      FS.files fs
        (parse (py "/data/study/02_Rawdata/sub-01/eeg/sub-01_task-Demo_eeg.mat"))
      = Some [1; 2; 3]%N
      /\ FS.files fs
           (parse (py "/data/study/02_Rawdata/sub-02/eeg/sub-02_task-Demo_eeg.mat"))
         = Some [4; 5]%N
      /\ FS.files fs
           (parse (py "/data/study/02_Rawdata/sub-02/eeg/sub-02_task-Demo_eeg.json"))
         = Some (Task.json_text (py "Demo"))
      /\ FS.is_file fs
           (parse (py "/data/study/02_Rawdata/sub-01/eeg/sub-01_task-Demo_channels.tsv"))
         = true
  | Raise _ => False
  end.
Proof. vm_compute. repeat split. Qed.

(** ** Strings *)

Lemma char_eqb_eq (a b : char) : char_eqb a b = true <-> a = b.
Proof. apply N.eqb_eq. Qed.

Lemma char_eqb_refl (a : char) : char_eqb a a = true.
Proof. apply N.eqb_refl. Qed.

Lemma pystr_eqb_eq (s t : pystr) : PyStr.eqb s t = true <-> s = t.
Proof.
  revert t; induction s as [|a s IH]; intros [|b t]; simpl;
    try (split; (reflexivity || discriminate)).
  rewrite andb_true_iff, char_eqb_eq, IH.
  split; [intros [-> ->]; reflexivity | intros H; inversion H; auto].
Qed.

Lemma pystr_eqb_refl (s : pystr) : PyStr.eqb s s = true.
Proof. apply pystr_eqb_eq; reflexivity. Qed.

Lemma pystr_eqb_neq (s t : pystr) : PyStr.eqb s t = false <-> s <> t.
Proof.
  rewrite <- pystr_eqb_eq. destruct (PyStr.eqb s t); split; congruence.
Qed.

(** The two replacements turn exactly the delimiters into whitespace and
    leave every other character alone. *)
Lemma replace_replace (s : pystr) :
  replace HYPHEN TAB (replace UNDERSCORE TAB s) = List.map tabbed s.
Proof.
  unfold replace. rewrite map_map. reflexivity.
Qed.

Lemma tabbed_delim (c : char) : isspace (tabbed c) = is_delim c.
Proof.
  unfold tabbed, is_delim, is_sep.
  destruct (char_eqb c UNDERSCORE) eqn:Eu.
  - reflexivity.
  - destruct (char_eqb c HYPHEN) eqn:Eh; reflexivity.
Qed.

Lemma tabbed_other (c : char) : is_delim c = false -> tabbed c = c.
Proof.
  unfold tabbed, is_delim, is_sep.
  destruct (char_eqb c UNDERSCORE) eqn:Eu; [discriminate|].
  destruct (char_eqb c HYPHEN) eqn:Eh; [discriminate|]. reflexivity.
Qed.

Lemma tabbed_sep (c : char) : is_sep c = true -> tabbed c = TAB.
Proof.
  unfold tabbed, is_sep.
  destruct (char_eqb c UNDERSCORE) eqn:Eu; [reflexivity|].
  destruct (char_eqb c HYPHEN) eqn:Eh; [reflexivity|discriminate].
Qed.

(** While a token is being read, [split] returns it as soon as a delimiter
    or the end of the name is met. *)
Lemma split_ws_reading (s cur : pystr) :
  cur <> [] ->
  item0 (split_ws cur (List.map tabbed s)) = Ok (rev cur ++ take_token s).
Proof.
  revert cur; induction s as [|c s IH]; intros cur Hcur; simpl.
  - destruct cur; [congruence|]. simpl. now rewrite app_nil_r.
  - rewrite tabbed_delim. destruct (is_delim c) eqn:Ec.
    + destruct cur; [congruence|]. simpl. now rewrite app_nil_r.
    + rewrite (tabbed_other _ Ec), IH by discriminate.
      simpl. now rewrite <- app_assoc.
Qed.

Lemma split_ws_skipping (s : pystr) :
  item0 (split_ws [] (List.map tabbed s)) =
  match first_token s with
  | Some t => Ok t
  | None => Raise IndexError
  end.
Proof.
  unfold first_token. induction s as [|c s IH]; simpl; [reflexivity|].
  rewrite tabbed_delim. destruct (is_delim c) eqn:Ec; [exact IH|].
  rewrite (tabbed_other _ Ec), split_ws_reading by discriminate.
  simpl. rewrite Ec. reflexivity.
Qed.

(** The extraction in terms of the first token. *)
Lemma subID_first_token (s : pystr) :
  subID s =
  match first_token s with
  | Some t => Ok (rjust 2 ZERO (tl t))
  | None => Raise IndexError
  end.
Proof.
  unfold subID, split. rewrite replace_replace, split_ws_skipping.
  destruct (first_token s); reflexivity.
Qed.

Lemma take_token_app (body rest : pystr) :
  Forall (fun c => is_delim c = false) body ->
  trailing rest = true ->
  take_token (body ++ rest) = body.
Proof.
  intros Hb Hr. induction Hb as [|c body Hc Hb IH]; simpl.
  - destruct rest as [|d rest]; [reflexivity|]. simpl in *. now rewrite Hr.
  - rewrite Hc, IH. reflexivity.
Qed.

Lemma skip_delims_lead (lead s : pystr) :
  forallb is_delim lead = true ->
  skip_delims (lead ++ s) = skip_delims s.
Proof.
  induction lead as [|c lead IH]; simpl; [reflexivity|].
  intros H. apply andb_true_iff in H as [-> H]. auto.
Qed.

Lemma first_token_shape (lead : pystr) (m : char) (body rest : pystr) :
  forallb is_delim lead = true ->
  is_delim m = false ->
  Forall (fun c => is_delim c = false) body ->
  trailing rest = true ->
  first_token (lead ++ m :: body ++ rest) = Some (m :: body).
Proof.
  intros Hl Hm Hb Hr. unfold first_token.
  rewrite skip_delims_lead by assumption. simpl. rewrite Hm.
  simpl. rewrite Hm, take_token_app by assumption. reflexivity.
Qed.

Lemma first_token_none (s : pystr) :
  first_token s = None <-> forallb is_delim s = true.
Proof.
  unfold first_token. induction s as [|c s IH]; simpl.
  - split; reflexivity.
  - destruct (is_delim c); simpl; [exact IH|]. split; discriminate.
Qed.

Lemma isdigit_not_delim (c : char) : isdigit c = true -> is_delim c = false.
Proof.
  unfold isdigit. intros H. apply andb_true_iff in H as [Hlo Hhi].
  apply N.leb_le in Hlo, Hhi.
  assert (E : (c = 48 \/ c = 49 \/ c = 50 \/ c = 51 \/ c = 52 \/ c = 53
               \/ c = 54 \/ c = 55 \/ c = 56 \/ c = 57)%N) by lia.
  repeat (destruct E as [->|E]; [reflexivity|]). subst c. reflexivity.
Qed.

Lemma digits_not_delims (ds : pystr) :
  forallb isdigit ds = true -> Forall (fun c => is_delim c = false) ds.
Proof.
  induction ds as [|d ds IH]; simpl; intros H; constructor.
  - apply isdigit_not_delim. now apply andb_true_iff in H.
  - apply IH. now apply andb_true_iff in H.
Qed.

Lemma rjust_length (w : nat) (f : char) (s : pystr) :
  length (rjust w f s) = Nat.max w (length s).
Proof.
  unfold rjust. rewrite length_app, repeat_length. lia.
Qed.

Lemma rjust_digits (w : nat) (s : pystr) :
  forallb isdigit s = true -> forallb isdigit (rjust w ZERO s) = true.
Proof.
  intros H. unfold rjust. rewrite forallb_app, H, andb_true_r.
  induction (w - length s) as [|n IH]; simpl; auto.
Qed.

(** Swapping one separator for the other changes nothing once both have
    been replaced by a tab. *)
Lemma tabbed_same_up_to_separators (s t : pystr) :
  same_up_to_separators s t -> List.map tabbed s = List.map tabbed t.
Proof.
  induction 1 as [|a b s t Hab _ IH]; simpl; [reflexivity|].
  rewrite IH. f_equal.
  destruct Hab as [->|[Ha Hb]]; [reflexivity|].
  now rewrite (tabbed_sep _ Ha), (tabbed_sep _ Hb).
Qed.

(** ** The subject identifier *)

(** C1, as the code has it: when the first token of the folder name is one
    marker character followed by decimal digits, the extraction returns
    those digits left-padded with '0' to width 2, whatever delimiters come
    before the token and whatever tokens come after it.  'S1_JohnDoe' gives
    '01'.  Exactly one character is dropped and the hyphen ends a token, so
    'sub-12' gives 'ub' and 'P-7_retest' gives '00'. *)
Theorem subID_marker_then_digits :
  (forall (lead : pystr) (m : char) (ds rest : pystr),
      forallb is_delim lead = true ->
      is_delim m = false ->
      forallb isdigit ds = true ->
      trailing rest = true ->
      subID (lead ++ m :: ds ++ rest) = Ok (rjust 2 ZERO ds))
  /\ subID (py "S1_JohnDoe") = Ok (py "01")
  /\ subID (py "sub-12") = Ok (py "ub")
  /\ subID (py "P-7_retest") = Ok (py "00").
Proof.
  split; [|repeat split; reflexivity].
  intros lead m ds rest Hl Hm Hd Hr.
  rewrite subID_first_token, first_token_shape; auto using digits_not_delims.
Qed.

Lemma subID_marker_then_digits_witness :
  subID (py "__S7-ab") = Ok (py "07").
Proof.
  apply (proj1 subID_marker_then_digits (py "__") 83%N (py "7") (py "-ab"));
    reflexivity.
Defined.

(** C1 as stated fails: 'sub-12' does not give '12'. *)
Lemma subID_sub_12 :
  subID (py "sub-12") = Ok (py "ub") /\ subID (py "sub-12") <> Ok (py "12").
Proof. split; [reflexivity|discriminate]. Qed.

(** C2, as the code has it: an identifier that is returned has at least two
    characters; it is a two-character, zero-padded decimal string when the
    first token is one marker character followed by one or two digits; and
    two folder names that differ only in underscores versus hyphens, in what
    follows the first token, or in the marker character give the same
    identifier. *)
Theorem subID_formatting_invariance :
  (forall (s id : pystr), subID s = Ok id -> 2 <= length id)
  /\ (forall (lead : pystr) (m : char) (ds rest : pystr),
        forallb is_delim lead = true ->
        is_delim m = false ->
        forallb isdigit ds = true ->
        1 <= length ds <= 2 ->
        trailing rest = true ->
        exists id, subID (lead ++ m :: ds ++ rest) = Ok id
                   /\ length id = 2 /\ forallb isdigit id = true)
  /\ (forall s t : pystr, same_up_to_separators s t -> subID s = subID t)
  /\ (forall (lead1 lead2 : pystr) (m1 m2 : char) (body rest1 rest2 : pystr),
        forallb is_delim lead1 = true ->
        forallb is_delim lead2 = true ->
        is_delim m1 = false ->
        is_delim m2 = false ->
        Forall (fun c => is_delim c = false) body ->
        trailing rest1 = true ->
        trailing rest2 = true ->
        subID (lead1 ++ m1 :: body ++ rest1)
        = subID (lead2 ++ m2 :: body ++ rest2)).
Proof.
  repeat split.
  - intros s id. rewrite subID_first_token.
    destruct (first_token s); [|discriminate].
    intros H; injection H as <-. rewrite rjust_length. lia.
  - intros lead m ds rest Hl Hm Hd Hlen Hr.
    exists (rjust 2 ZERO ds).
    rewrite subID_first_token, first_token_shape;
      auto using digits_not_delims.
    repeat split; [rewrite rjust_length; lia | now apply rjust_digits].
  - intros s t Hst. unfold subID.
    now rewrite !replace_replace, (tabbed_same_up_to_separators Hst).
  - intros. rewrite !subID_first_token, !first_token_shape by assumption.
    reflexivity.
Qed.

Lemma subID_formatting_invariance_witness :
  2 <= length (py "01")
  /\ (exists id, subID (py "S1_JD") = Ok id
                 /\ length id = 2 /\ forallb isdigit id = true)
  /\ subID (py "S1_JD") = subID (py "S1-JD")
  /\ subID (py "S1_JD") = subID (py "s1").
Proof.
  destruct subID_formatting_invariance as (Hlen & Htwo & Hsep & Hmark).
  split; [|split; [|split]].
  - apply (Hlen (py "S1_JD")). reflexivity.
  - apply (Htwo [] 83%N (py "1") (py "_JD")); try reflexivity. simpl; lia.
  - apply Hsep. unfold same_up_to_separators.
    repeat (constructor; [first [now left | right; split; reflexivity]|]).
    constructor.
  - apply (Hmark [] [] 83%N 115%N (py "1") (py "_JD") []); try reflexivity.
    repeat constructor.
Defined.

(** C2 as stated fails: an accepted name may give an identifier that is
    not two characters long. *)
Lemma subID_S123 :
  subID (py "S123") = Ok (py "123") /\ length (py "123") <> 2.
Proof. split; [reflexivity|discriminate]. Qed.

Lemma skip_delims_head (s : pystr) (c : char) (rest : pystr) :
  skip_delims s = c :: rest -> is_delim c = false.
Proof.
  induction s as [|x s IH]; simpl; [discriminate|].
  destruct (is_delim x) eqn:E; [exact IH|].
  intros H; injection H as <- _. exact E.
Qed.

Lemma first_token_not_empty (s tok : pystr) :
  first_token s = Some tok -> tok <> [].
Proof.
  unfold first_token. destruct (skip_delims s) as [|c rest] eqn:E;
    [discriminate|].
  intros H; injection H as <-. simpl.
  now rewrite (skip_delims_head _ E).
Qed.

(** C3, as the code has it: the extraction raises only when the folder name
    holds no token at all (it is empty or made of delimiters only), and the
    exception is Python's IndexError; a first token of a single character
    is accepted and gives '00'; the token [split()[0]] returns is never
    empty. *)
Theorem subID_raises_only_without_token :
  (forall s : pystr,
      subID s = Raise IndexError <-> forallb is_delim s = true)
  /\ (forall (s : pystr) (e : pyexn), subID s = Raise e -> e = IndexError)
  /\ (forall (lead : pystr) (c : char) (rest : pystr),
        forallb is_delim lead = true ->
        is_delim c = false ->
        trailing rest = true ->
        subID (lead ++ c :: rest) = Ok (py "00"))
  /\ (forall s tok : pystr,
        item0 (split (replace HYPHEN TAB (replace UNDERSCORE TAB s)))
        = Ok tok ->
        tok <> []).
Proof.
  split; [|split; [|split]].
  - intros s. rewrite subID_first_token, <- first_token_none.
    destruct (first_token s); split; (discriminate || reflexivity).
  - intros s e. rewrite subID_first_token.
    destruct (first_token s); [discriminate | congruence].
  - intros lead c rest Hl Hc Hr.
    rewrite subID_first_token.
    change (c :: rest) with (c :: [] ++ rest).
    rewrite first_token_shape by auto. reflexivity.
  - intros s tok. unfold split.
    rewrite replace_replace, split_ws_skipping.
    destruct (first_token s) as [t|] eqn:E; [|discriminate].
    intros H; injection H as <-. exact (first_token_not_empty _ E).
Qed.

Lemma subID_raises_only_without_token_witness :
  subID (py "_ -") = Raise IndexError
  /\ subID (py "-7_retest") = Ok (py "00")
  /\ py "S1" <> [].
Proof.
  destruct subID_raises_only_without_token as (Hnone & _ & Hone & Htok).
  split; [|split].
  - apply Hnone. reflexivity.
  - apply (Hone (py "-") 55%N (py "_retest")); reflexivity.
  - apply (Htok (py "_S1-JD")). reflexivity.
Defined.

(** C3 as stated fails: a single-character first token gives an identifier
    instead of an error. *)
Lemma subID_single_character :
  subID (py "1") = Ok (py "00")
  /\ (forall e : pyexn, subID (py "1") <> Raise e).
Proof. split; [reflexivity|intros e; discriminate]. Qed.

(** C10: the first character of the first token is dropped without being
    looked at: two folder names whose first tokens agree after their first
    character give the same identifier; 'S1', 'P1' and '11' all give
    '01'. *)
Theorem subID_ignores_marker :
  (forall s1 s2 t1 t2 : pystr,
      first_token s1 = Some t1 ->
      first_token s2 = Some t2 ->
      tl t1 = tl t2 ->
      exists id, subID s1 = Ok id /\ subID s2 = Ok id)
  /\ subID (py "S1") = Ok (py "01")
  /\ subID (py "P1") = Ok (py "01")
  /\ subID (py "11") = Ok (py "01").
Proof.
  split; [|repeat split; reflexivity].
  intros s1 s2 t1 t2 H1 H2 Ht.
  exists (rjust 2 ZERO (tl t1)).
  rewrite !subID_first_token, H1, H2, Ht. split; reflexivity.
Qed.

Lemma subID_ignores_marker_witness :
  exists id, subID (py "S12_ab") = Ok id /\ subID (py " x12-cd-e") = Ok id.
Proof.
  apply (proj1 subID_ignores_marker _ _ (py "S12") (py "x12")); reflexivity.
Defined.

(** ** Paths *)

Lemma split_on_aux_app (sep : char) (a b cur : pystr) :
  split_on_aux sep cur (a ++ sep :: b)
  = split_on_aux sep cur a ++ split_on_aux sep [] b.
Proof.
  revert cur; induction a as [|c a IH]; intros cur; simpl.
  - now rewrite char_eqb_refl.
  - destruct (char_eqb c sep); simpl; now rewrite IH.
Qed.

Lemma split_on_app (sep : char) (a b : pystr) :
  split_on sep (a ++ sep :: b) = split_on sep a ++ split_on sep b.
Proof. apply split_on_aux_app. Qed.

Lemma split_on_aux_whole (cur s : pystr) :
  no_slash s = true -> split_on_aux SLASH cur s = [rev cur ++ s].
Proof.
  revert cur; induction s as [|c s IH]; intros cur; simpl.
  - now rewrite app_nil_r.
  - intros H. apply andb_true_iff in H as [Hc Hs].
    apply negb_true_iff in Hc. rewrite Hc, IH by assumption.
    simpl. now rewrite <- app_assoc.
Qed.

Lemma parse_relative (s : pystr) :
  relative s = true ->
  parse s = mkPath [] (filter keep_component (split_on SLASH s)).
Proof.
  unfold parse, splitroot. destruct s as [|c s]; simpl; [reflexivity|].
  intros H. apply negb_true_iff in H. now rewrite H.
Qed.

Lemma truediv_relative (p : Path) (k : pystr) :
  relative k = true ->
  p // k
  = mkPath (root p) (names p ++ filter keep_component (split_on SLASH k)).
Proof.
  intros H. unfold truediv. now rewrite parse_relative.
Qed.

Lemma truediv_component (p : Path) (k : pystr) :
  component k = true -> p // k = mkPath (root p) (names p ++ [k]).
Proof.
  intros H. apply andb_true_iff in H as [Hs Hk].
  rewrite truediv_relative.
  - unfold split_on. rewrite split_on_aux_whole by assumption.
    simpl. now rewrite Hk.
  - destruct k as [|c k]; [reflexivity|]. simpl in *.
    now apply andb_true_iff in Hs.
Qed.

(** Joining three relative strings one after the other is joining them
    at once, written with slashes in between. *)
Lemma truediv_three (p : Path) (x : char) (a b c : pystr) :
  relative (x :: a) = true -> relative b = true -> relative c = true ->
  p // (x :: a) // b // c = p // ((x :: a) ++ SLASH :: b ++ SLASH :: c).
Proof.
  intros Ha Hb Hc.
  rewrite (truediv_relative p _ Ha).
  rewrite (truediv_relative _ _ Hb), (truediv_relative _ _ Hc).
  rewrite truediv_relative by exact Ha.
  simpl root. simpl names.
  rewrite 2!split_on_app, 2!filter_app, <- !app_assoc. reflexivity.
Qed.

Lemma join_snoc (sep : pystr) (xs : list pystr) (y : pystr) :
  xs <> [] -> join sep (xs ++ [y]) = join sep xs ++ sep ++ y.
Proof.
  induction xs as [|x xs IH]; [congruence|]. intros _.
  destruct xs as [|x' xs]; [reflexivity|].
  change (join sep ((x :: x' :: xs) ++ [y]))
    with (x ++ sep ++ join sep ((x' :: xs) ++ [y])).
  rewrite IH by discriminate.
  change (join sep (x :: x' :: xs)) with (x ++ sep ++ join sep (x' :: xs)).
  now rewrite <- !app_assoc.
Qed.

Lemma str_names (p : Path) :
  names p <> [] -> str p = root p ++ join [SLASH] (names p).
Proof.
  unfold str. destruct (names p); [congruence|].
  destruct (root p); reflexivity.
Qed.

Lemma str_child (p : Path) (k : pystr) :
  names p <> [] -> component k = true ->
  str (p // k) = str p ++ [SLASH] ++ k.
Proof.
  intros Hn Hk. rewrite truediv_component by assumption.
  rewrite (str_names p Hn), str_names by (simpl; destruct (names p); discriminate).
  simpl root. simpl names.
  rewrite join_snoc by assumption. now rewrite <- !app_assoc.
Qed.

Lemma truediv_names_nonempty (p : Path) (k : pystr) :
  component k = true -> names (p // k) <> [].
Proof.
  intros Hk. rewrite truediv_component by assumption. simpl.
  destruct (names p); discriminate.
Qed.

Lemma no_slash_app (a b : pystr) :
  no_slash (a ++ b) = no_slash a && no_slash b.
Proof. apply forallb_app. Qed.

Lemma component_sub_dir (S : pystr) :
  no_slash S = true -> component (sub_dir S) = true.
Proof.
  intros H. unfold component, sub_dir. rewrite no_slash_app, H. reflexivity.
Qed.

Lemma component_filename (S T suff : pystr) :
  no_slash S = true -> no_slash T = true -> no_slash suff = true ->
  component (filename S T suff) = true.
Proof.
  intros HS HT Hsuff. unfold component, filename.
  rewrite !no_slash_app, HS, HT, Hsuff. reflexivity.
Qed.

Lemma canonical_tail_parts (S dir T suff : pystr) :
  canonical_tail S dir T suff
  = sub_dir S ++ SLASH :: dir ++ SLASH :: filename S T (py "_" ++ suff).
Proof.
  unfold canonical_tail, sub_dir, filename.
  rewrite <- !app_assoc. reflexivity.
Qed.

Lemma placed_canonical (p : Path) (S dir T suff : pystr) :
  relative dir = true ->
  p // sub_dir S // dir // filename S T (py "_" ++ suff)
  = p // canonical_tail S dir T suff.
Proof.
  intros Hd. rewrite canonical_tail_parts. now apply truediv_three.
Qed.

Lemma placed_str (p : Path) (S dir T suff : pystr) :
  names p <> [] -> component dir = true ->
  no_slash S = true -> no_slash T = true -> no_slash suff = true ->
  str (p // sub_dir S // dir // filename S T (py "_" ++ suff))
  = str p ++ py "/" ++ canonical_tail S dir T suff.
Proof.
  intros Hp Hd HS HT Hsuff.
  assert (Hf : component (filename S T (py "_" ++ suff)) = true)
    by (apply component_filename; auto).
  pose proof (component_sub_dir _ HS) as Hs.
  rewrite !str_child; auto using truediv_names_nonempty.
  rewrite canonical_tail_parts, <- !app_assoc. reflexivity.
Qed.

(** C4: each destination the notebook computes is
    [<root>/sub-S/<modality-dir>/sub-S_task-<TaskName>_<suffix>] with
    [<root>] the raw-data directory: as a path for every input, and as the
    string it prints when neither the subject identifier nor the task name
    holds a slash; equal inputs give equal paths. *)
Theorem destination_canonical
    (ROOTPATH : Path) (taskname S : pystr) (a : artifact) :
  destination ROOTPATH taskname S a
  = ROOTPATH // RAWDATA // canonical_tail S (modality_dir a) taskname (suffix a)
  /\ (no_slash S = true -> no_slash taskname = true ->
      str (destination ROOTPATH taskname S a)
      = str (ROOTPATH // RAWDATA) ++ py "/"
          ++ canonical_tail S (modality_dir a) taskname (suffix a))
  /\ (forall (ROOTPATH' : Path) (taskname' S' : pystr) (a' : artifact),
        ROOTPATH' = ROOTPATH -> taskname' = taskname -> S' = S -> a' = a ->
        destination ROOTPATH' taskname' S' a'
        = destination ROOTPATH taskname S a).
Proof.
  split; [|split].
  - destruct a; apply placed_canonical; reflexivity.
  - intros HS HT.
    destruct a; apply placed_str;
      auto using truediv_names_nonempty; reflexivity.
  - intros; subst; reflexivity.
Qed.

Lemma destination_canonical_witness :
  str (destination (parse (py "/data/study")) (py "Demo") (py "01")
         EegRecording)
  = py "/data/study/02_Rawdata/sub-01/eeg/sub-01_task-Demo_eeg.mat".
Proof.
  apply (proj1 (proj2 (destination_canonical (parse (py "/data/study"))
                         (py "Demo") (py "01") EegRecording)));
    reflexivity.
Defined.

(** ** The channel table *)

Section ChannelFacts.

Variable float : Type.
Variable float_str : float -> pystr.
Variable memory : nat -> nat -> float.

Let datempty := Frame.np_empty memory Channels.nchannels Channels.ncolumns.

(** Runs the construction of the frame and offers it, with the rows
    [to_csv] derives from it, as the two witnesses. *)
Ltac frame_and_rows :=
  match goal with
  | |- exists df rows, ?m = Ok df /\ _ =>
      let v := eval vm_compute in m in
      match v with
      | Ok ?d =>
          exists d, (tl (Frame.csv_table float_str (py "n/a") d))
      end
  end.

(** Assigning a scalar to a column fills every row with it. *)
Lemma get_set_column (name : pystr) (col : list (Frame.cell float))
    (cols : list (pystr * list (Frame.cell float))) :
  Frame.has_column name cols = true ->
  Frame.get_column name (Frame.set_column name col cols) = Some col.
Proof.
  induction cols as [|[k old] cols IH]; simpl; [discriminate|].
  destruct (PyStr.eqb k name) eqn:E; simpl; rewrite E; auto.
Qed.

(** C7, as the code has it: a scalar assigned to the status or the
    Status_description column is not rejected, it is broadcast to every
    row; the table for subject '02' is built without error, with status
    'OK' and the same description text in each of its six rows. *)
Theorem scalar_override_is_broadcast :
  (forall (df : Frame.DataFrame float) (name : pystr) (c : Frame.cell float),
      Frame.has_column name (Frame.columns df) = true ->
      Frame.get_column name
        (Frame.columns (Frame.setattr df name (Frame.Scalar c)))
      = Some (repeat c (Frame.nrows df)))
  /\ (exists df rows,
        Channels.MetaData datempty (py "02") = Ok df
        /\ Channels.tsv_text float_str df
           = concat (List.map plain_row (Channels.columnNames :: rows))
        /\ length rows = 6
        /\ emitted_column 10 rows = repeat (py "OK") 6
        /\ emitted_column 11 rows
           = repeat
               (py "Regular artifact throughout, suspect electrical interference")
               6).
Proof.
  split.
  - intros df name c H. unfold Frame.setattr. rewrite H. simpl.
    now apply get_set_column.
  - unfold Channels.MetaData, Channels.set_status.
    replace (PyStr.eqb (py "02") (py "01")) with false by reflexivity.
    rewrite pystr_eqb_refl.
    frame_and_rows; vm_compute; repeat split.
Qed.

End ChannelFacts.

Lemma scalar_override_is_broadcast_witness :
  Frame.get_column (py "a")
    (Frame.columns
       (Frame.setattr (Frame.mkFrame 2 [(py "a", [Frame.CInt 1; Frame.CInt 2])])
          (py "a") (Frame.Scalar (@Frame.CNaN unit))))
  = Some [Frame.CNaN; Frame.CNaN].
Proof.
  apply (proj1 (scalar_override_is_broadcast (fun _ : unit => py "0.0")
                  (fun _ _ => tt))
           (Frame.mkFrame 2 [(py "a", [Frame.CInt 1; Frame.CInt 2])])
           (py "a") Frame.CNaN).
  reflexivity.
Defined.

(** C7 as stated fails: for subject '02' the Status_description is a single
    scalar, the table is built all the same and the scalar fills the six
    rows. *)
Lemma scalar_description_accepted :
  exists df,
    Channels.MetaData (Frame.np_empty (fun _ _ => tt) 6 12) (py "02") = Ok df
    /\ Frame.get_column (py "Status_description") (Frame.columns df)
       = Some (repeat
                 (Frame.CStr
                    (py "Regular artifact throughout, suspect electrical interference"))
                 6).
Proof. eexists; split; reflexivity. Qed.

(** ** The file system *)

Lemma names_eqb_eq (xs ys : list pystr) :
  PurePath.names_eqb xs ys = true <-> xs = ys.
Proof.
  revert ys; induction xs as [|x xs IH]; intros [|y ys]; simpl;
    try (split; (reflexivity || discriminate)).
  rewrite andb_true_iff, pystr_eqb_eq, IH.
  split; [intros [-> ->]; reflexivity | intros H; inversion H; auto].
Qed.

Lemma path_eqb_eq (p q : Path) : PurePath.eqb p q = true <-> p = q.
Proof.
  unfold PurePath.eqb. rewrite andb_true_iff, pystr_eqb_eq, names_eqb_eq.
  destruct p, q; simpl. split; [intros [-> ->]; reflexivity|].
  intros H; inversion H; auto.
Qed.

Lemma path_eqb_refl (p : Path) : PurePath.eqb p p = true.
Proof. now apply path_eqb_eq. Qed.

Lemma path_eqb_neq (p q : Path) : PurePath.eqb p q = false <-> p <> q.
Proof.
  rewrite <- path_eqb_eq. destruct (PurePath.eqb p q); split; congruence.
Qed.

Lemma files_put_same (fs : FS.t) (p : Path) (b : FS.bytes) :
  FS.files (FS.put fs p b) p = Some b.
Proof. simpl. now rewrite path_eqb_refl. Qed.

Lemma files_put_other (fs : FS.t) (p q : Path) (b : FS.bytes) :
  q <> p -> FS.files (FS.put fs p b) q = FS.files fs q.
Proof. intros H. simpl. apply path_eqb_neq in H. now rewrite H. Qed.

Lemma utf8_ascii (s : pystr) : ascii_only s = true -> utf8 s = Ok s.
Proof.
  induction s as [|c s IH]; simpl; [reflexivity|].
  intros H. apply andb_true_iff in H as [Hc Hs].
  unfold utf8_char. rewrite Hc. simpl. now rewrite IH.
Qed.

(** What [write_text] leaves behind when it returns. *)
Lemma write_text_result (p : Path) (text : pystr) (fs fs' : FS.t) :
  write_text p text fs = Ok fs' ->
  exists b, utf8 text = Ok b /\ FS.files fs' p = Some b.
Proof.
  unfold write_text, FS.write.
  destruct (FS.is_dir fs p); [discriminate|].
  destruct (FS.is_file fs (parent p)); [discriminate|].
  destruct (negb (FS.is_dir fs (parent p))); [discriminate|]. simpl.
  destruct (utf8 text) as [b|e]; [|discriminate]. simpl.
  intros H; injection H as <-. exists b. split; [reflexivity|].
  apply files_put_same.
Qed.


(** ** The task document *)

Lemma hex_digit_ascii (d : N) : (d < 16 -> Json.hex_digit d < 128)%N.
Proof.
  unfold Json.hex_digit. destruct (d <? 10)%N eqn:E; [apply N.ltb_lt in E|];
    lia.
Qed.

Lemma u_escape_ascii (n : N) : ascii_only (Json.u_escape n) = true.
Proof.
  unfold ascii_only, Json.u_escape. cbn [forallb].
  rewrite !andb_true_iff. repeat split;
    try (apply N.ltb_lt, hex_digit_ascii, N.mod_lt; discriminate).
Qed.

Lemma escape_char_ascii (c : char) : ascii_only (Json.escape_char c) = true.
Proof.
  unfold Json.escape_char.
  repeat match goal with
         | |- context [(c =? ?k)%N] => destruct (c =? k)%N; [reflexivity|]
         end.
  destruct ((32 <=? c) && (c <=? 126))%N eqn:E.
  - apply andb_true_iff in E as [_ E]. apply N.leb_le in E.
    unfold ascii_only; simpl. rewrite andb_true_r. apply N.ltb_lt. lia.
  - destruct (c <? 65536)%N; [apply u_escape_ascii|].
    unfold ascii_only. rewrite forallb_app. apply andb_true_iff.
    split; apply u_escape_ascii.
Qed.

Lemma encode_str_ascii (s : pystr) : ascii_only (Json.encode_str s) = true.
Proof.
  unfold Json.encode_str, ascii_only. rewrite !forallb_app. simpl.
  rewrite andb_true_r.
  induction s as [|c s IH]; simpl; [reflexivity|].
  rewrite forallb_app, IH, andb_true_r. apply escape_char_ascii.
Qed.

(** The head stops right after the key TaskName and the tail goes on with
    the next field. *)
Example json_head_tail_around_TaskName :
  (exists pre, json_head = pre ++ [34%N] ++ py "TaskName" ++ [34%N] ++ py ": ")
  /\ (exists post,
        json_tail
        = py "," ++ Json.newline_indent 2 1
            ++ [34%N] ++ py "SamplingFrequency" ++ [34%N] ++ py ": 1200,"
            ++ post).
Proof.
  split.
  - exists (firstn 275 json_head). reflexivity.
  - exists (skipn 30 json_tail). reflexivity.
Qed.

(** The document is a fixed text around the encoded task name. *)
Lemma json_text_shape (T : pystr) :
  Task.json_text T = json_head ++ Json.encode_str T ++ json_tail.
Proof.
  unfold Task.json_text, Json.dumps, Task.metadata.
  cbn [Task.dict fold_right Task.kw fst snd Json.encode Json.encode_items join].
  generalize (Json.encode_str T). intros e.
  rewrite <- !app_assoc. vm_compute. reflexivity.
Qed.

Lemma json_text_ascii (T : pystr) : ascii_only (Task.json_text T) = true.
Proof.
  rewrite json_text_shape. unfold ascii_only. rewrite !forallb_app.
  fold (ascii_only (Json.encode_str T)). rewrite encode_str_ascii.
  reflexivity.
Qed.




(** ** Copying the recordings *)

Lemma is_dir_add_dir (fs : FS.t) (p q : Path) :
  FS.is_dir (FS.add_dir fs p) q = PurePath.eqb q p || FS.is_dir fs q.
Proof.
  unfold FS.is_dir. simpl. destruct (names q); [now rewrite orb_true_r|].
  reflexivity.
Qed.

Lemma os_mkdir_cases (fs : FS.t) (p : Path) :
  names p <> [] ->
  FS.is_file fs (parent p) = false ->
  FS.is_file fs p = false ->
  FS.os_mkdir fs p
  = if negb (FS.is_dir fs (parent p)) then Raise FileNotFoundError
    else if FS.is_dir fs p then Raise FileExistsError
    else Ok (FS.add_dir fs p).
Proof.
  intros Hn Hpar Hp. unfold FS.os_mkdir.
  destruct (names p); [congruence|].
  now rewrite Hpar, Hp, orb_false_r.
Qed.

(** What a successful [os.mkdir] did. *)
Lemma os_mkdir_result (fs fs' : FS.t) (p : Path) :
  FS.os_mkdir fs p = Ok fs' ->
  fs' = FS.add_dir fs p /\ FS.is_file fs p = false.
Proof.
  unfold FS.os_mkdir. destruct (names p); [discriminate|].
  destruct (FS.is_file fs (parent p)); [discriminate|].
  destruct (negb (FS.is_dir fs (parent p))); [discriminate|].
  destruct (FS.is_dir fs p); [discriminate|]. simpl.
  destruct (FS.is_file fs p); [discriminate|].
  intros H; injection H as <-. auto.
Qed.

Lemma keeps_files_refl (fs : FS.t) : keeps_files fs fs.
Proof. split; auto. Qed.

Lemma keeps_files_trans (fs1 fs2 fs3 : FS.t) :
  keeps_files fs1 fs2 -> keeps_files fs2 fs3 -> keeps_files fs1 fs3.
Proof.
  intros [F12 D12] [F23 D23]. split; [congruence|].
  intros q Hq. rewrite D23, D12; auto.
  unfold FS.is_file in *. now rewrite F12.
Qed.

Lemma keeps_files_add_dir (fs : FS.t) (p : Path) :
  FS.is_file fs p = false -> keeps_files fs (FS.add_dir fs p).
Proof.
  intros Hp. split; [reflexivity|]. intros q Hq.
  rewrite is_dir_add_dir. destruct (PurePath.eqb q p) eqn:E; [|reflexivity].
  apply path_eqb_eq in E. congruence.
Qed.

Lemma mkdir_exist_ok_keeps (fs fs' : FS.t) (p : Path) :
  FS.mkdir_exist_ok fs p = Ok fs' -> keeps_files fs fs'.
Proof.
  unfold FS.mkdir_exist_ok.
  destruct (FS.os_mkdir fs p) as [fs1|e] eqn:E.
  - intros H; injection H as <-.
    apply os_mkdir_result in E as [-> Hf]. now apply keeps_files_add_dir.
  - destruct e; try discriminate;
      (destruct (FS.is_dir fs p); [|discriminate]);
      intros H; injection H as <-; apply keeps_files_refl.
Qed.

Lemma mkdir_rec_keeps (r : pystr) (rn : list pystr) (fs fs' : FS.t) :
  FS.mkdir_rec r rn fs = Ok fs' -> keeps_files fs fs'.
Proof.
  revert fs fs'; induction rn as [|x rn IH]; intros fs fs'; simpl.
  - intros H; injection H as <-. apply keeps_files_refl.
  - destruct (FS.os_mkdir fs _) as [fs1|e] eqn:E.
    + intros H; injection H as <-.
      apply os_mkdir_result in E as [-> Hf]. now apply keeps_files_add_dir.
    + destruct e;
        try ((destruct (FS.is_dir fs _); [|discriminate]);
             intros H; injection H as <-; apply keeps_files_refl).
      destruct (FS.mkdir_rec r rn fs) as [fs1|e1] eqn:E1; [|discriminate].
      simpl. intros H. apply IH in E1. apply mkdir_exist_ok_keeps in H.
      eapply keeps_files_trans; eassumption.
Qed.

Lemma read_result (fs : FS.t) (p : Path) (b : FS.bytes) :
  FS.read fs p = Ok b <-> FS.is_dir fs p = false /\ FS.files fs p = Some b.
Proof.
  unfold FS.read. destruct (FS.is_dir fs p).
  - split; [discriminate | intros [? _]; discriminate].
  - destruct (FS.files fs p).
    + split; [intros H; injection H as ->; auto|].
      intros [_ H]; injection H as ->; reflexivity.
    + split; [discriminate | intros [_ ?]; discriminate].
Qed.

Lemma read_after_mkdirs (fs fs' : FS.t) (p : Path) (b : FS.bytes) :
  keeps_files fs fs' -> FS.read fs p = Ok b -> FS.read fs' p = Ok b.
Proof.
  intros [F D] H. apply read_result in H as [Hd Hf]. apply read_result.
  rewrite F, D; auto. unfold FS.is_file. now rewrite Hf.
Qed.

(** What a successful [copyfile] did. *)
Lemma copyfile_result (src dst : Path) (fs fs' : FS.t) :
  FS.copyfile src dst fs = Ok fs' ->
  exists b, FS.read fs src = Ok b /\ fs' = FS.put fs dst b.
Proof.
  unfold FS.copyfile. destruct (PurePath.eqb src dst); [discriminate|].
  destruct (FS.read fs src) as [b|e]; [|discriminate]. simpl.
  unfold FS.write.
  destruct (FS.is_dir fs dst); [discriminate|].
  destruct (FS.is_file fs (parent dst)); [discriminate|].
  destruct (negb (FS.is_dir fs (parent dst))); [discriminate|].
  intros H; injection H as <-. eauto.
Qed.

(** When [copyfile] returns: nothing is asked of the destination file
    itself, which may or may not exist. *)
Lemma copyfile_ok (src dst : Path) (fs : FS.t) (b : FS.bytes) :
  FS.read fs src = Ok b ->
  src <> dst ->
  FS.is_dir fs dst = false ->
  FS.is_dir fs (parent dst) = true ->
  FS.is_file fs (parent dst) = false ->
  FS.copyfile src dst fs = Ok (FS.put fs dst b).
Proof.
  intros Hr Hne Hd Hp Hf. unfold FS.copyfile, FS.write.
  apply path_eqb_neq in Hne. rewrite Hne, Hr. simpl.
  now rewrite Hd, Hf, Hp.
Qed.

(** The copy loops, whenever their body returns. *)
Lemma copy_body_result (dir dst fpath : Path) (fs fs' : FS.t) (b : FS.bytes) :
  FS.read fs fpath = Ok b ->
  (fs1 <- FS.mkdir dir fs ;; FS.copyfile fpath dst fs1) = Ok fs' ->
  FS.files fs' dst = Some b.
Proof.
  intros Hr. destruct (FS.mkdir dir fs) as [fs1|e] eqn:E; [|discriminate].
  simpl. intros H. apply mkdir_rec_keeps in E.
  apply copyfile_result in H as (b' & Hr' & ->).
  eapply read_after_mkdirs in Hr; [|exact E].
  rewrite Hr in Hr'. injection Hr' as <-. apply files_put_same.
Qed.

(** [mkdir(parents=True, exist_ok=True)] returns as soon as no regular file
    sits where a directory is wanted; it makes directories only on the way
    to its target. *)
Lemma mkdir_rec_ok (r : pystr) (rn : list pystr) (fs : FS.t) :
  (forall k, FS.is_file fs (mkPath r (rev (skipn k rn))) = false) ->
  exists fs1,
    FS.mkdir_rec r rn fs = Ok fs1
    /\ FS.is_dir fs1 (mkPath r (rev rn)) = true
    /\ (forall q, FS.is_dir fs1 q = true ->
                  FS.is_dir fs q = true
                  \/ exists k, q = mkPath r (rev (skipn k rn))).
Proof.
  revert fs; induction rn as [|x rn IH]; intros fs Hf.
  - exists fs. simpl. auto.
  - set (p := mkPath r (rev (x :: rn))).
    assert (Hn : names p <> []) by (simpl; destruct (rev rn); discriminate).
    assert (Hpar : parent p = mkPath r (rev rn))
      by (unfold parent; simpl; now rewrite removelast_last).
    pose proof (Hf 0) as Hfp. pose proof (Hf 1) as Hfpar.
    simpl skipn in Hfp, Hfpar. fold p in Hfp.
    cbn [FS.mkdir_rec]. fold p.
    rewrite os_mkdir_cases by (rewrite ?Hpar; assumption).
    rewrite Hpar.
    destruct (FS.is_dir fs (mkPath r (rev rn))) eqn:Dpar; simpl.
    + destruct (FS.is_dir fs p) eqn:Dp.
      * exists fs. auto.
      * exists (FS.add_dir fs p). split; [reflexivity|].
        split; [now rewrite is_dir_add_dir, path_eqb_refl|].
        intros q. rewrite is_dir_add_dir. intros Hq.
        apply orb_true_iff in Hq as [Hq|Hq]; [|now left].
        right. exists 0. now apply path_eqb_eq in Hq.
    + destruct (IH fs) as (fs1 & E1 & D1 & O1);
        [intros k; apply (Hf (S k))|].
      rewrite E1. simpl.
      destruct (mkdir_rec_keeps _ _ _ E1) as [F1 _].
      assert (Hfile : forall q, FS.is_file fs1 q = FS.is_file fs q)
        by (intros q; unfold FS.is_file; now rewrite F1).
      unfold FS.mkdir_exist_ok.
      rewrite os_mkdir_cases by (rewrite ?Hpar, ?Hfile; assumption).
      rewrite Hpar, D1. simpl.
      assert (Hup : forall q, FS.is_dir fs1 q = true ->
                 FS.is_dir fs q = true
                 \/ exists k, q = mkPath r (rev (skipn k (x :: rn)))).
      { intros q Hq. destruct (O1 q Hq) as [?|[k ->]]; [now left|].
        right. now exists (S k). }
      destruct (FS.is_dir fs1 p) eqn:Dp1.
      * exists fs1. auto.
      * exists (FS.add_dir fs1 p). split; [reflexivity|].
        split; [now rewrite is_dir_add_dir, path_eqb_refl|].
        intros q. rewrite is_dir_add_dir. intros Hq.
        apply orb_true_iff in Hq as [Hq|Hq]; [|now apply Hup].
        right. exists 0. now apply path_eqb_eq in Hq.
Qed.

Lemma mkdir_ok (p : Path) (fs : FS.t) :
  (forall k, FS.is_file fs (mkPath (root p) (firstn k (names p))) = false) ->
  exists fs1,
    FS.mkdir p fs = Ok fs1
    /\ keeps_files fs fs1
    /\ FS.is_dir fs1 p = true
    /\ (forall q, FS.is_dir fs1 q = true ->
                  FS.is_dir fs q = true
                  \/ exists k, q = mkPath (root p) (firstn k (names p))).
Proof.
  intros Hf. unfold FS.mkdir.
  assert (Hk : forall k,
             rev (skipn k (rev (names p)))
             = firstn (length (names p) - k) (names p))
    by (intros k; now rewrite skipn_rev, rev_involutive).
  destruct (mkdir_rec_ok (root p) (rev (names p)) fs) as (fs1 & E & D & O).
  { intros k. rewrite Hk. apply Hf. }
  exists fs1. split; [exact E|]. split; [now apply mkdir_rec_keeps in E|].
  rewrite rev_involutive in D. split; [now destruct p|].
  intros q Hq. destruct (O q Hq) as [?|[k ->]]; [now left|].
  right. rewrite Hk. eauto.
Qed.

(** The body of a copy loop returns when the source can be read, no regular
    file sits on the way to the target directory, and the destination is
    neither a directory nor the source itself. *)
Lemma copy_body_ok (dir : Path) (f : pystr) (fpath : Path) (fs : FS.t)
    (b : FS.bytes) :
  component f = true ->
  FS.read fs fpath = Ok b ->
  fpath <> dir // f ->
  (forall k,
      FS.is_file fs (mkPath (root dir) (firstn k (names dir))) = false) ->
  FS.is_dir fs (dir // f) = false ->
  exists fs',
    (fs1 <- FS.mkdir dir fs ;; FS.copyfile fpath (dir // f) fs1) = Ok fs'.
Proof.
  intros Hc Hr Hne Hf Hd.
  destruct (mkdir_ok dir fs Hf) as (fs1 & E & K & D & O).
  rewrite E. simpl.
  assert (Hdst : dir // f = mkPath (root dir) (names dir ++ [f]))
    by now apply truediv_component.
  assert (Hpar : parent (dir // f) = dir).
  { rewrite Hdst. unfold parent. simpl. rewrite removelast_last.
    now destruct dir. }
  exists (FS.put fs1 (dir // f) b). apply copyfile_ok; auto.
  - eapply read_after_mkdirs; eassumption.
  - destruct (FS.is_dir fs1 (dir // f)) eqn:D1; [|reflexivity].
    destruct (O _ D1) as [H|[k H]]; [congruence|].
    rewrite Hdst in H. injection H as H.
    apply (f_equal (@length pystr)) in H.
    rewrite length_app, length_firstn in H. simpl in H. lia.
  - now rewrite Hpar.
  - rewrite Hpar. destruct K as [F _]. unfold FS.is_file. rewrite F.
    specialize (Hf (length (names dir))). rewrite firstn_all in Hf.
    destruct dir. exact Hf.
Qed.

(** A subject identifier never holds a slash: the folder name is one
    component of the printed path. *)
Lemma no_slash_rev (s : pystr) : no_slash (rev s) = no_slash s.
Proof.
  induction s as [|c s IH]; [reflexivity|]. simpl.
  rewrite no_slash_app, IH. simpl. now rewrite andb_true_r, andb_comm.
Qed.

Lemma split_on_aux_no_slash (s cur : pystr) :
  no_slash cur = true ->
  Forall (fun t => no_slash t = true) (split_on_aux SLASH cur s).
Proof.
  revert cur; induction s as [|c s IH]; intros cur Hcur; simpl.
  - constructor; [now rewrite no_slash_rev | constructor].
  - destruct (char_eqb c SLASH) eqn:E.
    + constructor; [now rewrite no_slash_rev | now apply IH].
    + apply IH. simpl. now rewrite E.
Qed.

Lemma pname_no_slash (x : pystr) : no_slash (pname x) = true.
Proof.
  unfold pname, split_on.
  pose proof (split_on_aux_no_slash x [] eq_refl) as H.
  induction H as [|t l Ht Hl IH]; [reflexivity|].
  destruct l; [exact Ht | exact IH].
Qed.

Lemma skip_delims_no_slash (s : pystr) :
  no_slash s = true -> no_slash (skip_delims s) = true.
Proof.
  induction s as [|c s IH]; simpl; [reflexivity|]. intros H.
  destruct (is_delim c); [|exact H].
  apply IH. now apply andb_true_iff in H.
Qed.

Lemma take_token_no_slash (s : pystr) :
  no_slash s = true -> no_slash (take_token s) = true.
Proof.
  induction s as [|c s IH]; simpl; [reflexivity|]. intros H.
  apply andb_true_iff in H as [Hc Hs].
  destruct (is_delim c); [reflexivity|]. simpl. now rewrite Hc, IH.
Qed.

Lemma no_slash_zeros (k : nat) : no_slash (repeat ZERO k) = true.
Proof. induction k; simpl; auto. Qed.

Lemma subID_no_slash (n s : pystr) :
  no_slash n = true -> subID n = Ok s -> no_slash s = true.
Proof.
  intros Hn. rewrite subID_first_token. unfold first_token.
  pose proof (take_token_no_slash _ (skip_delims_no_slash _ Hn)) as Ht.
  destruct (skip_delims n) as [|c t]; [discriminate|].
  remember (take_token (c :: t)) as tok eqn:Etok. clear Etok.
  intros H; injection H as <-.
  unfold rjust. rewrite no_slash_app, no_slash_zeros.
  destruct tok as [|x tok]; [reflexivity|].
  simpl in Ht |- *. now apply andb_true_iff in Ht.
Qed.

Lemma subject_of_no_slash (fpath : Path) (s : pystr) :
  subject_of fpath = Ok s -> no_slash s = true.
Proof. apply subID_no_slash, pname_no_slash. Qed.

(** C9: the copy step duplicates the bytes of the source: after
    [copyfile] the destination holds exactly the bytes of the source, which
    is left as it was; nothing is asked of the destination file, which is
    replaced when it exists.  The same holds for the two copy loops:
    whenever a body returns, the destination holds the bytes of the source;
    and a body does return when the source can be read, the task name
    holds no slash, no regular file sits on the way to the target
    directory, and the destination is neither a directory nor the source
    itself. *)
Theorem copy_is_exact_and_overwrites (ROOTPATH : Path) (taskname : pystr) :
  (forall (src dst : Path) (fs : FS.t) (b : FS.bytes),
      FS.read fs src = Ok b ->
      src <> dst ->
      FS.is_dir fs dst = false ->
      FS.is_dir fs (parent dst) = true ->
      FS.is_file fs (parent dst) = false ->
      exists fs',
        FS.copyfile src dst fs = Ok fs'
        /\ FS.files fs' dst = Some b
        /\ FS.read fs' src = Ok b)
  /\ (forall (fpath : Path) (fs fs' : FS.t) (s : pystr) (b : FS.bytes),
        subject_of fpath = Ok s ->
        FS.read fs fpath = Ok b ->
        (eeg_body ROOTPATH taskname fpath fs = Ok fs' ->
         FS.files fs' (rawfile_eeg ROOTPATH taskname s) = Some b)
        /\ (beh_body ROOTPATH taskname fpath fs = Ok fs' ->
            FS.files fs' (rawfile_beh ROOTPATH taskname s) = Some b))
  /\ (forall (fpath : Path) (fs : FS.t) (s : pystr) (b : FS.bytes),
        subject_of fpath = Ok s ->
        FS.read fs fpath = Ok b ->
        no_slash taskname = true ->
        (forall k,
            FS.is_file fs
              (mkPath (root ROOTPATH)
                 (firstn k (names (parent (rawfile_eeg ROOTPATH taskname s)))))
            = false) ->
        FS.is_dir fs (rawfile_eeg ROOTPATH taskname s) = false ->
        fpath <> rawfile_eeg ROOTPATH taskname s ->
        exists fs',
          eeg_body ROOTPATH taskname fpath fs = Ok fs'
          /\ FS.files fs' (rawfile_eeg ROOTPATH taskname s) = Some b)
  /\ (forall (fpath : Path) (fs : FS.t) (s : pystr) (b : FS.bytes),
        subject_of fpath = Ok s ->
        FS.read fs fpath = Ok b ->
        no_slash taskname = true ->
        (forall k,
            FS.is_file fs
              (mkPath (root ROOTPATH)
                 (firstn k (names (parent (rawfile_beh ROOTPATH taskname s)))))
            = false) ->
        FS.is_dir fs (rawfile_beh ROOTPATH taskname s) = false ->
        fpath <> rawfile_beh ROOTPATH taskname s ->
        exists fs',
          beh_body ROOTPATH taskname fpath fs = Ok fs'
          /\ FS.files fs' (rawfile_beh ROOTPATH taskname s) = Some b).
Proof.
  assert (placed : forall s dir suff,
             no_slash s = true -> no_slash taskname = true ->
             component dir = true -> no_slash suff = true ->
             let d := ROOTPATH // RAWDATA // sub_dir s // dir in
             root d = root ROOTPATH
             /\ parent (d // filename s taskname suff) = d).
  { intros s dir suff Hs Ht Hd Hsuff d. subst d.
    rewrite !truediv_component
      by first [reflexivity | assumption
               | auto using component_sub_dir, component_filename].
    unfold parent. simpl. rewrite removelast_last. auto. }
  split; [|split; [|split]].
  - intros src dst fs b Hr Hne Hd Hp Hf.
    exists (FS.put fs dst b). split; [now apply copyfile_ok|].
    split; [apply files_put_same|].
    apply read_result in Hr as [Hsd Hsf]. apply read_result.
    split; [exact Hsd|]. now rewrite files_put_other.
  - intros fpath fs fs' s b Hs Hr.
    unfold eeg_body, beh_body. rewrite Hs. simpl.
    split; now apply copy_body_result.
  - intros fpath fs s b Hs Hr Ht Hf Hd Hne.
    pose proof (subject_of_no_slash _ Hs) as Hns.
    destruct (placed s (py "eeg") (py "_eeg.mat") Hns Ht eq_refl eq_refl)
      as [Hroot Hpar].
    unfold rawfile_eeg in *. rewrite Hpar, <- Hroot in Hf.
    unfold eeg_body. rewrite Hs. simpl. unfold rawfile_eeg.
    destruct (copy_body_ok _ _ fs
                (component_filename s taskname (py "_eeg.mat") Hns Ht eq_refl)
                Hr Hne Hf Hd)
      as [fs' H].
    exists fs'. split; [exact H|]. eapply copy_body_result; eassumption.
  - intros fpath fs s b Hs Hr Ht Hf Hd Hne.
    pose proof (subject_of_no_slash _ Hs) as Hns.
    destruct (placed s (py "beh") (py "_beh.mat") Hns Ht eq_refl eq_refl)
      as [Hroot Hpar].
    unfold rawfile_beh in *. rewrite Hpar, <- Hroot in Hf.
    unfold beh_body. rewrite Hs. simpl. unfold rawfile_beh.
    destruct (copy_body_ok _ _ fs
                (component_filename s taskname (py "_beh.mat") Hns Ht eq_refl)
                Hr Hne Hf Hd)
      as [fs' H].
    exists fs'. split; [exact H|]. eapply copy_body_result; eassumption.
Qed.

Lemma copy_is_exact_and_overwrites_witness :
  FS.files Sample.rerun_tree
    (rawfile_eeg Sample.ROOTPATH Sample.taskname (py "01"))
  = Some [9; 9; 9; 9]%N
  /\ exists fs',
      eeg_body Sample.ROOTPATH Sample.taskname Sample.eeg_S1 Sample.rerun_tree
      = Ok fs'
      /\ FS.files fs' (rawfile_eeg Sample.ROOTPATH Sample.taskname (py "01"))
         = Some [1; 2; 3]%N.
Proof.
  split; [reflexivity|].
  apply (proj1 (proj2 (proj2
           (copy_is_exact_and_overwrites Sample.ROOTPATH Sample.taskname)))
           Sample.eeg_S1 Sample.rerun_tree (py "01") [1; 2; 3]%N);
    try reflexivity.
  - intros k. do 6 (destruct k as [|k]; [reflexivity|]). reflexivity.
  - apply path_eqb_neq. reflexivity.
Defined.

(** * Further properties *)

(** ** From a source file to its subject *)

Lemma last_split_on_tail (x d : pystr) :
  no_slash d = true -> last (split_on SLASH (x ++ SLASH :: d)) [] = d.
Proof.
  intros Hd. rewrite split_on_app. unfold split_on at 2.
  rewrite split_on_aux_whole by assumption. simpl. apply last_last.
Qed.

Lemma last_split_on_whole (d : pystr) :
  no_slash d = true -> last (split_on SLASH d) [] = d.
Proof.
  intros Hd. unfold split_on. now rewrite split_on_aux_whole.
Qed.

Lemma pname_of_folder (r : pystr) (ns : list pystr) (d : pystr) :
  valid_root r = true -> no_slash d = true ->
  pname (str (mkPath r (ns ++ [d]))) = d.
Proof.
  intros Hr Hd. unfold pname.
  rewrite str_names by (simpl; destruct ns; discriminate). simpl.
  destruct ns as [|n ns].
  - simpl. unfold valid_root in Hr.
    apply orb_true_iff in Hr as [Hr|Hr];
      [apply orb_true_iff in Hr as [Hr|Hr]|];
      apply pystr_eqb_eq in Hr; subst r.
    + now apply last_split_on_whole.
    + now apply (last_split_on_tail []).
    + now apply (last_split_on_tail [SLASH]).
  - rewrite join_snoc by discriminate.
    rewrite app_assoc. now apply last_split_on_tail.
Qed.

Lemma subject_of_child (p : Path) (d f : pystr) :
  valid_root (root p) = true ->
  component d = true -> component f = true ->
  subject_of (p // d // f) = subID d.
Proof.
  intros Hr Hd Hf. unfold subject_of.
  rewrite !truediv_component by assumption. unfold parent. simpl.
  rewrite removelast_last, pname_of_folder; auto.
  now apply andb_true_iff in Hd.
Qed.

(** X1: the subject of a source file is read from the name of the folder
    that holds it and from nothing else: neither the directories above
    that folder nor the name of the file matter. *)
Theorem subject_is_read_from_the_folder (p : Path) (d f : pystr) :
  valid_root (root p) = true ->
  component d = true ->
  component f = true ->
  subject_of (p // d // f) = subID d.
Proof. apply subject_of_child. Qed.

Lemma subject_is_read_from_the_folder_witness :
  subject_of (parse (py "/data/study/01_Sourcedata") // py "S7_ab"
                // py "eeg001.mat")
  = subID (py "S7_ab").
Proof.
  apply (subject_is_read_from_the_folder
           (parse (py "/data/study/01_Sourcedata")) (py "S7_ab")
           (py "eeg001.mat")); reflexivity.
Defined.

(** X2: a recording that lies directly in the source directory, which the
    glob also finds, is given to subject '01': the name of the source
    directory itself is read as the folder name. *)
Theorem recording_in_source_root_is_subject_01 (ROOTPATH : Path) (f : pystr) :
  valid_root (root ROOTPATH) = true ->
  component f = true ->
  subject_of (ROOTPATH // SOURCEDATA // f) = Ok (py "01").
Proof.
  intros Hr Hf. now rewrite subject_of_child.
Qed.

Lemma recording_in_source_root_is_subject_01_witness :
  subject_of (parse (py "/data/study") // SOURCEDATA // py "eeg_pilot.mat")
  = Ok (py "01").
Proof.
  apply (recording_in_source_root_is_subject_01 (parse (py "/data/study"))
           (py "eeg_pilot.mat")); reflexivity.
Defined.

(** ** The loops on the file system *)

Lemma copyfile_inv (src dst : Path) (fs fs' : FS.t) :
  FS.copyfile src dst fs = Ok fs' ->
  exists b,
    FS.read fs src = Ok b
    /\ src <> dst
    /\ FS.is_dir fs dst = false
    /\ FS.is_file fs (parent dst) = false
    /\ FS.is_dir fs (parent dst) = true
    /\ fs' = FS.put fs dst b.
Proof.
  unfold FS.copyfile.
  destruct (PurePath.eqb src dst) eqn:E; [discriminate|].
  apply path_eqb_neq in E.
  destruct (FS.read fs src) as [b|e]; [|discriminate]. simpl.
  unfold FS.write.
  destruct (FS.is_dir fs dst); [discriminate|].
  destruct (FS.is_file fs (parent dst)); [discriminate|].
  destruct (FS.is_dir fs (parent dst)); [|discriminate]. simpl.
  intros H; injection H as <-. exists b. auto 10.
Qed.

Lemma copy_body_inv (dir dst fpath : Path) (fs fs' : FS.t) :
  (fs1 <- FS.mkdir dir fs ;; FS.copyfile fpath dst fs1) = Ok fs' ->
  exists fsm b,
    FS.mkdir dir fs = Ok fsm
    /\ keeps_files fs fsm
    /\ FS.read fsm fpath = Ok b
    /\ fpath <> dst
    /\ FS.is_dir fsm dst = false
    /\ FS.is_file fsm (parent dst) = false
    /\ FS.is_dir fsm (parent dst) = true
    /\ fs' = FS.put fsm dst b.
Proof.
  destruct (FS.mkdir dir fs) as [fsm|e] eqn:E; [|discriminate]. simpl.
  intros H. apply copyfile_inv in H as (b & H).
  exists fsm, b. split; [reflexivity|].
  split; [now apply mkdir_rec_keeps in E | exact H].
Qed.

Lemma write_text_inv (p : Path) (text : pystr) (fs fs' : FS.t) :
  write_text p text fs = Ok fs' ->
  exists b,
    utf8 text = Ok b
    /\ FS.dirs fs' = FS.dirs fs
    /\ forall q, FS.files fs' q
                 = if PurePath.eqb q p then Some b else FS.files fs q.
Proof.
  unfold write_text, FS.write.
  destruct (FS.is_dir fs p); [discriminate|].
  destruct (FS.is_file fs (parent p)); [discriminate|].
  destruct (negb (FS.is_dir fs (parent p))); [discriminate|]. simpl.
  destruct (utf8 text) as [b|e]; [|discriminate]. simpl.
  intros H; injection H as <-. exists b. split; [reflexivity|].
  split; [reflexivity|]. intros q. simpl.
  now destruct (PurePath.eqb q p).
Qed.

(** A loop whose body leaves a set of files alone leaves them alone. *)
Lemma for_each_frame {A : Type} (body : A -> FS.t -> res FS.t)
    (keep : Path -> Prop) :
  (forall x fs fs', body x fs = Ok fs' ->
                    forall q, keep q -> FS.files fs' q = FS.files fs q) ->
  forall xs fs fs', for_each body xs fs = Ok fs' ->
                    forall q, keep q -> FS.files fs' q = FS.files fs q.
Proof.
  intros Hbody xs. induction xs as [|x xs IH]; intros fs fs'; simpl.
  - intros H; injection H as <-. reflexivity.
  - destruct (body x fs) as [fs1|e] eqn:E; [|discriminate]. simpl.
    intros H q Hq. rewrite (IH _ _ H q Hq). eapply Hbody; eassumption.
Qed.

(** A loop that meets an item on which its body always raises, raises. *)
Lemma for_each_raises {A : Type} (body : A -> FS.t -> res FS.t) (x : A)
    (xs : list A) :
  (forall fs, exists e, body x fs = Raise e) ->
  In x xs ->
  forall fs, exists e, for_each body xs fs = Raise e.
Proof.
  intros Hx. induction xs as [|y xs IH]; [contradiction|].
  intros Hin fs. simpl.
  destruct (body y fs) as [fs1|e] eqn:E; simpl; [|now exists e].
  destruct Hin as [->|Hin]; [|now apply IH].
  destruct (Hx fs) as [e He]. congruence.
Qed.

Lemma under_truediv (base : Path) (k : pystr) :
  relative k = true -> under base (base // k).
Proof.
  intros Hk. rewrite truediv_relative by assumption.
  split; [reflexivity|]. simpl. eauto.
Qed.

Lemma under_trans (a b c : Path) : under a b -> under b c -> under a c.
Proof.
  intros [Hr1 [r1 Hn1]] [Hr2 [r2 Hn2]]. split; [congruence|].
  exists (r1 ++ r2). now rewrite Hn2, Hn1, app_assoc.
Qed.

Lemma placed_under (base : Path) (s dir T suff : pystr) :
  relative dir = true ->
  under base (base // sub_dir s // dir // filename s T suff).
Proof.
  intros Hd.
  eapply under_trans; [|apply under_truediv; reflexivity].
  eapply under_trans; [|apply under_truediv; exact Hd].
  apply under_truediv. reflexivity.
Qed.

Lemma files_put_outside (fs : FS.t) (p q : Path) (b : FS.bytes)
    (keep : Path -> Prop) :
  ~ keep p -> keep q -> FS.files (FS.put fs p b) q = FS.files fs q.
Proof.
  intros Hp Hq. apply files_put_other. intros ->. contradiction.
Qed.

Lemma copy_body_frame (dir dst fpath : Path) (fs fs' : FS.t) (q : Path) :
  (fs1 <- FS.mkdir dir fs ;; FS.copyfile fpath dst fs1) = Ok fs' ->
  q <> dst -> FS.files fs' q = FS.files fs q.
Proof.
  intros H Hq.
  apply copy_body_inv in H as (fsm & b & _ & [F _] & _ & _ & _ & _ & _ & ->).
  rewrite files_put_other by assumption. now rewrite F.
Qed.

Lemma write_text_frame (p : Path) (text : pystr) (fs fs' : FS.t) (q : Path) :
  write_text p text fs = Ok fs' -> q <> p -> FS.files fs' q = FS.files fs q.
Proof.
  intros H Hq. apply write_text_inv in H as (b & _ & _ & F).
  rewrite F. apply path_eqb_neq in Hq. now rewrite Hq.
Qed.

Section RunFacts.

Variable float : Type.
Variable float_str : float -> pystr.
Variable memory : nat -> nat -> float.
Variable ROOTPATH : Path.
Variable taskname : pystr.

Let base := ROOTPATH // RAWDATA.

Lemma beh_body_frame (fp : Path) (fs fs' : FS.t) (q : Path) :
  beh_body ROOTPATH taskname fp fs = Ok fs' ->
  ~ under base q -> FS.files fs' q = FS.files fs q.
Proof.
  unfold beh_body. destruct (subject_of fp) as [s|e]; [|discriminate].
  simpl. intros H Hq. eapply copy_body_frame; [exact H|].
  intros ->. apply Hq. now apply placed_under.
Qed.

Lemma eeg_body_frame (fp : Path) (fs fs' : FS.t) (q : Path) :
  eeg_body ROOTPATH taskname fp fs = Ok fs' ->
  ~ under base q -> FS.files fs' q = FS.files fs q.
Proof.
  unfold eeg_body. destruct (subject_of fp) as [s|e]; [|discriminate].
  simpl. intros H Hq. eapply copy_body_frame; [exact H|].
  intros ->. apply Hq. now apply placed_under.
Qed.

Lemma tsv_body_frame (fp : Path) (fs fs' : FS.t) (q : Path) :
  Channels.tsv_body float_str memory ROOTPATH taskname fp fs = Ok fs' ->
  ~ under base q -> FS.files fs' q = FS.files fs q.
Proof.
  unfold Channels.tsv_body.
  destruct (subject_of fp) as [s|e]; [|discriminate]. cbn [bind].
  match goal with
  | |- context [Channels.MetaData ?a s] =>
      destruct (Channels.MetaData a s) as [df|e]; [|discriminate]
  end. cbn [bind].
  intros H Hq. eapply write_text_frame; [exact H|].
  intros ->. apply Hq. now apply placed_under.
Qed.

Lemma json_body_frame (fp : Path) (fs fs' : FS.t) (q : Path) :
  Task.json_body ROOTPATH taskname fp fs = Ok fs' ->
  ~ under base q -> FS.files fs' q = FS.files fs q.
Proof.
  unfold Task.json_body.
  destruct (subject_of fp) as [s|e]; [|discriminate]. simpl.
  intros H Hq. eapply write_text_frame; [exact H|].
  intros ->. apply Hq. now apply placed_under.
Qed.

(** X3: the notebook writes files below [ROOTPATH/02_Rawdata] only: for
    a task name without a slash and an absolute [ROOTPATH] without ['..'],
    when the run returns, every file whose absolute path, free of ['..'],
    does not start with the names of [ROOTPATH/02_Rawdata], the source
    recordings among them, holds what it held before. *)
Theorem run_writes_only_below_rawdata
    (behFiles eegFiles : list Path) (fs fs' : FS.t) :
  no_slash taskname = true ->
  plain_path ROOTPATH = true ->
  Notebook.run float_str memory ROOTPATH taskname behFiles eegFiles fs
  = Ok fs' ->
  forall q, plain_path q = true ->
            ~ under (ROOTPATH // RAWDATA) q ->
            FS.files fs' q = FS.files fs q.
Proof.
  unfold Notebook.run. intros _ _ H q _ Hq.
  destruct (for_each (beh_body _ _) behFiles fs) as [fs1|e] eqn:E1;
    [|discriminate]. simpl in H.
  destruct (for_each (eeg_body _ _) eegFiles fs1) as [fs2|e] eqn:E2;
    [|discriminate]. simpl in H.
  destruct (for_each (Channels.tsv_body _ _ _ _) eegFiles fs2)
    as [fs3|e] eqn:E3; [|discriminate]. simpl in H.
  assert (frame : forall (body : Path -> FS.t -> res FS.t) xs a b,
             (forall x a b q, body x a = Ok b -> ~ under base q ->
                              FS.files b q = FS.files a q) ->
             for_each body xs a = Ok b -> FS.files b q = FS.files a q).
  { intros body xs a b Hbody Hloop.
    apply (for_each_frame body (fun q => ~ under base q)
             (fun x a b Hb q Hq => Hbody x a b q Hb Hq) xs a Hloop q Hq). }
  rewrite (frame _ _ _ _ json_body_frame H).
  rewrite (frame _ _ _ _ tsv_body_frame E3).
  rewrite (frame _ _ _ _ eeg_body_frame E2).
  exact (frame _ _ _ _ beh_body_frame E1).
Qed.

(** X4: one folder name without a token, anywhere in either list of
    files, makes the whole run end with an exception, whatever the file
    system holds: no file is skipped. *)
Theorem folder_without_token_aborts_the_run
    (behFiles eegFiles : list Path) (fp : Path) (e : pyexn) :
  In fp (behFiles ++ eegFiles) ->
  subject_of fp = Raise e ->
  forall fs, exists e',
    Notebook.run float_str memory ROOTPATH taskname behFiles eegFiles fs
    = Raise e'.
Proof.
  intros Hin Hs fs. unfold Notebook.run.
  assert (Hbeh : forall fs, exists e', beh_body ROOTPATH taskname fp fs
                                       = Raise e')
    by (intros fs0; exists e; unfold beh_body; now rewrite Hs).
  assert (Heeg : forall fs, exists e', eeg_body ROOTPATH taskname fp fs
                                       = Raise e')
    by (intros fs0; exists e; unfold eeg_body; now rewrite Hs).
  apply in_app_or in Hin as [Hin|Hin].
  - destruct (for_each_raises _ _ _ Hbeh Hin fs) as [e' ->]. now exists e'.
  - destruct (for_each (beh_body _ _) behFiles fs) as [fs1|e1];
      [|now exists e1]. simpl.
    destruct (for_each_raises _ _ _ Heeg Hin fs1) as [e' ->]. now exists e'.
Qed.

(** X5: two recordings whose folders give the same subject land on the
    same destination: the loop raises nothing and the destination ends up
    with the bytes of the later file. *)
Theorem same_subject_last_recording_wins
    (fp1 fp2 : Path) (fs fs' : FS.t) (s : pystr) (b2 : FS.bytes) :
  subject_of fp1 = Ok s ->
  subject_of fp2 = Ok s ->
  FS.read fs fp2 = Ok b2 ->
  for_each (eeg_body ROOTPATH taskname) [fp1; fp2] fs = Ok fs' ->
  FS.files fs' (rawfile_eeg ROOTPATH taskname s) = Some b2.
Proof.
  intros H1 H2 Hr. simpl.
  destruct (eeg_body ROOTPATH taskname fp1 fs) as [fs1|e] eqn:E1;
    [|discriminate]. simpl.
  destruct (eeg_body ROOTPATH taskname fp2 fs1) as [fs2|e] eqn:E2;
    [|discriminate]. simpl.
  intros H; injection H as <-.
  unfold eeg_body in E1, E2. rewrite H1 in E1. rewrite H2 in E2.
  simpl in E1, E2. fold (rawfile_eeg ROOTPATH taskname s) in E1, E2.
  eapply copy_body_result; [|exact E2].
  pose proof E2 as E2'.
  apply copy_body_inv in E2' as (_ & _ & _ & _ & _ & Hne & _).
  apply copy_body_inv in E1 as (fsm & b1 & _ & K & _ & _ & _ & _ & _ & ->).
  eapply read_after_mkdirs in Hr; [|exact K].
  apply read_result in Hr as [Hd Hf]. apply read_result.
  split; [exact Hd|]. now rewrite files_put_other.
Qed.

End RunFacts.

Lemma run_writes_only_below_rawdata_witness :
  exists fs',
    Notebook.run (fun _ : unit => py "0.0") (fun _ _ => tt)
      Sample.ROOTPATH Sample.taskname [] [Sample.eeg_S1; Sample.eeg_S2]
      Sample.source_tree = Ok fs'
    /\ FS.files fs' Sample.eeg_S1 = Some [1; 2; 3]%N.
Proof.
  destruct (Notebook.run (fun _ : unit => py "0.0") (fun _ _ => tt)
              Sample.ROOTPATH Sample.taskname [] [Sample.eeg_S1; Sample.eeg_S2]
              Sample.source_tree) as [fs'|e] eqn:E;
    [|vm_compute in E; discriminate E].
  exists fs'. split; [reflexivity|].
  rewrite (@run_writes_only_below_rawdata unit (fun _ => py "0.0")
             (fun _ _ => tt) Sample.ROOTPATH Sample.taskname []
             [Sample.eeg_S1; Sample.eeg_S2] Sample.source_tree fs');
    try reflexivity; [exact E|].
  intros [_ [rest H]]. vm_compute in H. discriminate H.
Defined.

Lemma folder_without_token_aborts_the_run_witness :
  exists e,
    Notebook.run (fun _ : unit => py "0.0") (fun _ _ => tt)
      Sample.ROOTPATH Sample.taskname []
      [Sample.eeg_S1; parse (py "/data/study/01_Sourcedata/_-_/eeg001.mat")]
      Sample.source_tree = Raise e.
Proof.
  apply (folder_without_token_aborts_the_run (fun _ : unit => py "0.0")
           (fun _ _ => tt) Sample.ROOTPATH Sample.taskname []
           [Sample.eeg_S1; parse (py "/data/study/01_Sourcedata/_-_/eeg001.mat")]
           (parse (py "/data/study/01_Sourcedata/_-_/eeg001.mat"))
           (e := IndexError)).
  - simpl. auto.
  - reflexivity.
Defined.

Lemma same_subject_last_recording_wins_witness :
  exists fs',
    for_each (eeg_body Sample.ROOTPATH Sample.taskname)
      [Clash.first; Clash.second] Clash.tree = Ok fs'
    /\ FS.files fs' (rawfile_eeg Sample.ROOTPATH Sample.taskname (py "01"))
       = Some [2; 2; 2]%N.
Proof.
  destruct (for_each (eeg_body Sample.ROOTPATH Sample.taskname)
              [Clash.first; Clash.second] Clash.tree) as [fs'|e] eqn:E;
    [|vm_compute in E; discriminate E].
  exists fs'. split; [reflexivity|].
  apply (same_subject_last_recording_wins Sample.ROOTPATH Sample.taskname
           Clash.first Clash.second Clash.tree (s := py "01"));
    solve [reflexivity | exact E].
Defined.

(** ** The metadata loops and the directories *)

Lemma removelast_shorter {A : Type} (l : list A) :
  l <> [] -> removelast l <> l.
Proof.
  intros Hl H. apply (f_equal (@length A)) in H.
  destruct (exists_last Hl) as (l' & a & ->).
  rewrite removelast_last, length_app in H. simpl in H. lia.
Qed.

Lemma parent_differs (fs : FS.t) (p : Path) :
  FS.is_dir fs p = false -> parent p <> p.
Proof.
  unfold FS.is_dir, parent. destruct p as [r ns]. simpl.
  destruct ns as [|n ns]; [discriminate|]. intros _ H.
  injection H as H.
  apply (@removelast_shorter pystr (n :: ns)); [discriminate | exact H].
Qed.

Lemma parent_of_placed (base : Path) (s dir T suff : pystr) :
  no_slash s = true -> no_slash T = true ->
  component dir = true -> no_slash suff = true ->
  parent (base // sub_dir s // dir // filename s T suff)
  = base // sub_dir s // dir.
Proof.
  intros Hs HT Hd Hsuff.
  rewrite (truediv_component (base // sub_dir s // dir))
    by now apply component_filename.
  unfold parent. simpl. rewrite removelast_last.
  now destruct (base // sub_dir s // dir).
Qed.

Lemma write_text_ok_utf8 (p : Path) (text : pystr) (fs : FS.t)
    (b : FS.bytes) :
  FS.is_dir fs p = false ->
  FS.is_dir fs (parent p) = true ->
  FS.is_file fs (parent p) = false ->
  utf8 text = Ok b ->
  write_text p text fs = Ok (FS.put (FS.put fs p []) p b).
Proof.
  intros Hp Hd Hf Hb. unfold write_text, FS.write.
  rewrite Hp, Hf, Hd. simpl. now rewrite Hb.
Qed.

Lemma write_text_no_directory (p : Path) (text : pystr) (fs : FS.t) :
  FS.is_dir fs p = false ->
  FS.is_dir fs (parent p) = false ->
  FS.is_file fs (parent p) = false ->
  write_text p text fs = Raise FileNotFoundError.
Proof.
  intros Hp Hd Hf. unfold write_text, FS.write. now rewrite Hp, Hf, Hd.
Qed.

Lemma is_file_put (fs : FS.t) (p q : Path) (b : FS.bytes) :
  q <> p -> FS.is_file (FS.put fs p b) q = FS.is_file fs q.
Proof.
  intros H. unfold FS.is_file. now rewrite files_put_other.
Qed.

Section MetadataFacts.

Variable float : Type.
Variable float_str : float -> pystr.
Variable memory : nat -> nat -> float.
Variable ROOTPATH : Path.
Variable taskname : pystr.

Let datempty := Frame.np_empty memory Channels.nchannels Channels.ncolumns.
Let eeg_dir (s : pystr) := ROOTPATH // RAWDATA // sub_dir s // py "eeg".

(** The table of every subject can be built and encoded. *)
Lemma tsv_bytes (s : pystr) :
  exists df b,
    Channels.MetaData datempty s = Ok df
    /\ utf8 (Channels.tsv_text float_str df) = Ok b.
Proof.
  unfold Channels.MetaData, Channels.set_status.
  destruct (PyStr.eqb s (py "01"));
    [|destruct (PyStr.eqb s (py "02"))];
    (eexists; eexists; split; [reflexivity|]; vm_compute; reflexivity).
Qed.

Lemma write_text_needs_directory (p : Path) (text : pystr) (fs : FS.t) :
  FS.is_dir fs (parent p) = false ->
  exists e, write_text p text fs = Raise e.
Proof.
  intros Hd. unfold write_text, FS.write. rewrite Hd.
  destruct (FS.is_dir fs p); [now exists IsADirectoryError|].
  destruct (FS.is_file fs (parent p));
    [now exists NotADirectoryError | now exists FileNotFoundError].
Qed.

(** X6: the loops of steps 3 and 4 make no directory: for a task name
    without a slash, on a tree in which the eeg directory of the subject
    is not a directory, the body of step 3 and the body of step 4 both
    end with an exception and write nothing. *)
Theorem metadata_loops_make_no_directory
    (fp : Path) (fs : FS.t) (s : pystr) :
  subject_of fp = Ok s ->
  no_slash taskname = true ->
  FS.is_dir fs (eeg_dir s) = false ->
  (exists e, Task.json_body ROOTPATH taskname fp fs = Raise e)
  /\ (exists e,
        Channels.tsv_body float_str memory ROOTPATH taskname fp fs = Raise e).
Proof.
  intros Hs HT Hd.
  pose proof (subject_of_no_slash _ Hs) as Hns.
  split.
  - unfold Task.json_body. rewrite Hs. cbn [bind].
    apply write_text_needs_directory.
    unfold metadatafile_json. rewrite parent_of_placed; auto.
  - unfold Channels.tsv_body. rewrite Hs. cbn [bind].
    destruct (tsv_bytes s) as (df & b & Hdf & _).
    unfold datempty in Hdf. rewrite Hdf. cbn [bind].
    apply write_text_needs_directory.
    unfold metadatafile_tsv. rewrite parent_of_placed; auto.
Qed.


End MetadataFacts.

(** ** Running the copy loops again *)

Lemma os_mkdir_ok_settled (fs fs' : FS.t) (p : Path) :
  FS.os_mkdir fs p = Ok fs' -> settled fs' p.
Proof.
  unfold FS.os_mkdir. destruct (names p) eqn:En; [discriminate|].
  destruct (FS.is_file fs (parent p)); [discriminate|].
  destruct (FS.is_dir fs (parent p)) eqn:Dp; [|discriminate]. simpl.
  destruct (FS.is_dir fs p || FS.is_file fs p); [discriminate|].
  intros H; injection H as <-. split.
  - now rewrite is_dir_add_dir, path_eqb_refl.
  - right. now rewrite is_dir_add_dir, Dp, orb_true_r.
Qed.

Lemma os_mkdir_exists_settled (fs : FS.t) (p : Path) (e : pyexn) :
  FS.os_mkdir fs p = Raise e ->
  e <> FileNotFoundError ->
  FS.is_dir fs p = true ->
  settled fs p.
Proof.
  unfold FS.os_mkdir, settled. intros H He Hd. split; [exact Hd|].
  destruct (names p) eqn:En.
  - right. unfold FS.is_dir, parent. simpl. now rewrite En.
  - destruct (FS.is_file fs (parent p)); [now left|].
    destruct (FS.is_dir fs (parent p)); [now right|].
    simpl in H. congruence.
Qed.

Lemma mkdir_exist_ok_settled (fs fs' : FS.t) (p : Path) :
  FS.mkdir_exist_ok fs p = Ok fs' -> settled fs' p.
Proof.
  unfold FS.mkdir_exist_ok.
  destruct (FS.os_mkdir fs p) as [fs1|e] eqn:E.
  - intros H; injection H as <-. now apply os_mkdir_ok_settled in E.
  - destruct e; try discriminate;
      (destruct (FS.is_dir fs p) eqn:D; [|discriminate]);
      intros H; injection H as <-;
      (eapply os_mkdir_exists_settled; [exact E | discriminate | exact D]).
Qed.

Lemma mkdir_rec_settled (r : pystr) (rn : list pystr) (fs fs' : FS.t) :
  FS.mkdir_rec r rn fs = Ok fs' -> settled fs' (mkPath r (rev rn)).
Proof.
  destruct rn as [|x rn]; simpl.
  - intros H; injection H as <-. split; [reflexivity | now right].
  - destruct (FS.os_mkdir fs _) as [fs1|e] eqn:E.
    + intros H; injection H as <-. now apply os_mkdir_ok_settled in E.
    + destruct e;
        try ((destruct (FS.is_dir fs _) eqn:D; [|discriminate]);
             intros H; injection H as <-;
             (eapply os_mkdir_exists_settled;
              [exact E | discriminate | exact D])).
      destruct (FS.mkdir_rec r rn fs) as [fs1|e1]; [|discriminate].
      simpl. apply mkdir_exist_ok_settled.
Qed.

Lemma mkdir_settled (p : Path) (fs fs' : FS.t) :
  FS.mkdir p fs = Ok fs' -> settled fs' p.
Proof.
  unfold FS.mkdir. intros H. apply mkdir_rec_settled in H.
  rewrite rev_involutive in H. now destruct p.
Qed.

(** On a settled directory [mkdir] changes nothing. *)
Lemma mkdir_again (p : Path) (fs : FS.t) :
  settled fs p -> FS.mkdir p fs = Ok fs.
Proof.
  intros [Hd Hp]. unfold FS.mkdir.
  assert (Ep : mkPath (root p) (rev (rev (names p))) = p)
    by (rewrite rev_involutive; now destruct p).
  destruct (rev (names p)) as [|x rn] eqn:En; [reflexivity|].
  cbn [FS.mkdir_rec]. rewrite Ep.
  unfold FS.os_mkdir.
  destruct (names p) eqn:Enames; [discriminate En|].
  destruct (FS.is_file fs (parent p)); [now rewrite Hd|].
  destruct Hp as [Hp|Hp]; [discriminate|].
  rewrite Hp, Hd. reflexivity.
Qed.

Lemma settled_put (fs : FS.t) (p q : Path) (b : FS.bytes) :
  settled fs p -> settled (FS.put fs q b) p.
Proof.
  intros [Hd Hp]. split; [exact Hd|].
  destruct Hp as [Hp|Hp]; [left|now right].
  unfold FS.is_file in *. simpl.
  now destruct (PurePath.eqb (parent p) q).
Qed.

Lemma copy_body_again (dir dst fpath : Path) (fs fs' : FS.t) :
  (fs1 <- FS.mkdir dir fs ;; FS.copyfile fpath dst fs1) = Ok fs' ->
  exists fs'',
    (fs1 <- FS.mkdir dir fs' ;; FS.copyfile fpath dst fs1) = Ok fs''
    /\ (forall q, FS.files fs'' q = FS.files fs' q)
    /\ (forall q, FS.is_dir fs'' q = FS.is_dir fs' q).
Proof.
  intros H.
  apply copy_body_inv in H
    as (fsm & b & Hm & _ & Hr & Hne & Hdst & Hfile & Hdir & ->).
  apply mkdir_settled in Hm.
  rewrite (mkdir_again (settled_put dst b Hm)). cbn [bind].
  exists (FS.put (FS.put fsm dst b) dst b).
  split; [|split].
  - apply copyfile_ok; auto.
    + apply read_result in Hr as [Hsd Hsf]. apply read_result.
      split; [exact Hsd|]. now rewrite files_put_other.
    + rewrite is_file_put; [assumption|].
      eapply parent_differs; eassumption.
  - intros q. simpl. now destruct (PurePath.eqb q dst).
  - reflexivity.
Qed.

(** X8: the copy loops can be run again: when the body of the EEG loop (or
    of the behavioural loop) has returned for a source file, it returns
    for the same file on the tree it left, and changes neither a file nor
    a directory. *)
Theorem copy_loops_rerun_changes_nothing
    (ROOTPATH : Path) (taskname : pystr) (fp : Path) (fs fs1 : FS.t) :
  (eeg_body ROOTPATH taskname fp fs = Ok fs1 ->
   exists fs2,
     eeg_body ROOTPATH taskname fp fs1 = Ok fs2
     /\ (forall q, FS.files fs2 q = FS.files fs1 q)
     /\ (forall q, FS.is_dir fs2 q = FS.is_dir fs1 q))
  /\ (beh_body ROOTPATH taskname fp fs = Ok fs1 ->
      exists fs2,
        beh_body ROOTPATH taskname fp fs1 = Ok fs2
        /\ (forall q, FS.files fs2 q = FS.files fs1 q)
        /\ (forall q, FS.is_dir fs2 q = FS.is_dir fs1 q)).
Proof.
  unfold eeg_body, beh_body.
  destruct (subject_of fp) as [s|e]; [|split; discriminate]. cbn [bind].
  split; apply copy_body_again.
Qed.

Lemma copy_loops_rerun_changes_nothing_witness :
  exists fs1 fs2,
    eeg_body Sample.ROOTPATH Sample.taskname Sample.eeg_S1 Sample.source_tree
    = Ok fs1
    /\ eeg_body Sample.ROOTPATH Sample.taskname Sample.eeg_S1 fs1 = Ok fs2
    /\ (forall q, FS.files fs2 q = FS.files fs1 q)
    /\ (forall q, FS.is_dir fs2 q = FS.is_dir fs1 q).
Proof.
  destruct (eeg_body Sample.ROOTPATH Sample.taskname Sample.eeg_S1
              Sample.source_tree) as [fs1|e] eqn:E;
    [|vm_compute in E; discriminate E].
  destruct (proj1 (copy_loops_rerun_changes_nothing Sample.ROOTPATH
                     Sample.taskname Sample.eeg_S1 Sample.source_tree fs1) E)
    as (fs2 & H).
  exists fs1, fs2. split; [reflexivity | exact H].
Defined.

Lemma metadata_loops_make_no_directory_witness :
  (exists e,
      Task.json_body Sample.ROOTPATH Sample.taskname Sample.eeg_S1
        Sample.source_tree = Raise e)
  /\ exists e,
      Channels.tsv_body (fun _ : unit => py "0.0") (fun _ _ => tt)
        Sample.ROOTPATH Sample.taskname Sample.eeg_S1 Sample.source_tree
      = Raise e.
Proof.
  apply (metadata_loops_make_no_directory (fun _ : unit => py "0.0")
           (fun _ _ => tt) Sample.ROOTPATH Sample.taskname Sample.eeg_S1
           Sample.source_tree (s := py "01")); reflexivity.
Defined.


(** ** Frames *)

Section FrameFacts.

Variable float : Type.
Variable float_str : float -> pystr.

Lemma frame_columns_names (a : Frame.ndarray float) (j : nat)
    (names : list pystr) :
  List.map fst (Frame.frame_columns a j names) = names.
Proof.
  revert j; induction names as [|n names IH]; intros j; simpl;
    [reflexivity | now rewrite IH].
Qed.

Lemma frame_columns_lengths (a : Frame.ndarray float) (j : nat)
    (names : list pystr) :
  Forall (fun col => length (snd col) = Frame.shape0 a)
    (Frame.frame_columns a j names).
Proof.
  revert j; induction names as [|n names IH]; intros j; simpl;
    constructor; [|apply IH].
  simpl. now rewrite length_map, length_seq.
Qed.

Lemma column_of_length (n : nat) (v : Frame.value float) :
  length (Frame.column_of n v) = n.
Proof.
  destruct v; simpl; [apply repeat_length|].
  now rewrite length_map, length_seq.
Qed.

Lemma set_column_names (name : pystr) (col : list (Frame.cell float))
    (cols : list (pystr * list (Frame.cell float))) :
  List.map fst (Frame.set_column name col cols) = List.map fst cols.
Proof.
  induction cols as [|[k old] cols IH]; simpl; [reflexivity|].
  destruct (PyStr.eqb k name); simpl; [reflexivity | now rewrite IH].
Qed.

Lemma set_column_lengths (n : nat) (name : pystr)
    (col : list (Frame.cell float))
    (cols : list (pystr * list (Frame.cell float))) :
  length col = n ->
  Forall (fun c => length (snd c) = n) cols ->
  Forall (fun c => length (snd c) = n) (Frame.set_column name col cols).
Proof.
  intros Hcol. induction 1 as [|[k old] cols Hk Hcols IH]; simpl;
    [constructor|].
  destruct (PyStr.eqb k name); constructor; auto.
Qed.

Lemma setattr_keeps_shape (df : Frame.DataFrame float) (name : pystr)
    (v : Frame.value float) :
  rectangular df ->
  rectangular (Frame.setattr df name v)
  /\ Frame.nrows (Frame.setattr df name v) = Frame.nrows df
  /\ List.map fst (Frame.columns (Frame.setattr df name v))
     = List.map fst (Frame.columns df).
Proof.
  intros H. unfold Frame.setattr.
  destruct (Frame.has_column name (Frame.columns df)); [|auto].
  unfold rectangular. simpl. split; [|split; [reflexivity|]].
  - apply set_column_lengths; [apply column_of_length | exact H].
  - apply set_column_names.
Qed.

Lemma assign_all_keeps_shape
    (a : Frame.ndarray float) (names : list pystr)
    (df0 : Frame.DataFrame float)
    (l : list (pystr * Frame.value float)) :
  Frame.DataFrame_of a names = Ok df0 ->
  List.map fst (Frame.columns (assign_all df0 l)) = names
  /\ Frame.nrows (assign_all df0 l) = Frame.shape0 a
  /\ rectangular (assign_all df0 l).
Proof.
  unfold Frame.DataFrame_of.
  destruct (Nat.eqb (Frame.shape1 a) (length names)); [|discriminate].
  intros H; injection H as <-.
  assert (H0 : List.map fst (Frame.columns
                 (Frame.mkFrame (Frame.shape0 a)
                    (Frame.frame_columns a 0 names))) = names
               /\ Frame.nrows (Frame.mkFrame (Frame.shape0 a)
                    (Frame.frame_columns a 0 names)) = Frame.shape0 a
               /\ rectangular (Frame.mkFrame (Frame.shape0 a)
                    (Frame.frame_columns a 0 names))).
  { split; [apply frame_columns_names|]. split; [reflexivity|].
    apply frame_columns_lengths. }
  revert H0. generalize (Frame.mkFrame (Frame.shape0 a)
                           (Frame.frame_columns a 0 names)).
  unfold assign_all. induction l as [|[n v] l IH]; intros df H0;
    [exact H0|].
  simpl. apply IH. destruct H0 as (Hn & Hr & Hrect).
  destruct (setattr_keeps_shape n v Hrect) as (Hrect' & Hr' & Hn').
  split; [congruence|]. split; [congruence | exact Hrect'].
Qed.

Lemma csv_table_shape (na_rep : pystr) (df : Frame.DataFrame float) :
  length (Frame.csv_table float_str na_rep df) = S (Frame.nrows df)
  /\ Forall (fun r => length r = length (Frame.columns df))
       (Frame.csv_table float_str na_rep df).
Proof.
  unfold Frame.csv_table. simpl.
  rewrite length_map, length_seq. split; [reflexivity|].
  constructor; [apply length_map|].
  apply Forall_forall. intros r Hr.
  apply in_map_iff in Hr as (i & <- & _).
  unfold Frame.row_cells. now rewrite !length_map.
Qed.

(** X9: the assignments of the notebook never change the shape of the
    channel table: on a frame made from an array with the twelve column
    names, after any run of assignments to these columns, each of a scalar
    or of a one-column frame with a row for every row of the table, the
    column names are the twelve names in their order, the number of rows
    is that of the array, every column has one cell per row, and [to_csv]
    writes a header and one line per row, of twelve fields each. *)
Theorem assignments_keep_the_shape
    (a : Frame.ndarray float) (df0 : Frame.DataFrame float)
    (l : list (pystr * Frame.value float)) (na_rep : pystr) :
  Frame.DataFrame_of a Channels.columnNames = Ok df0 ->
  Forall (notebook_assignment (Frame.shape0 a)) l ->
  List.map fst (Frame.columns (assign_all df0 l)) = Channels.columnNames
  /\ Frame.nrows (assign_all df0 l) = Frame.shape0 a
  /\ rectangular (assign_all df0 l)
  /\ length (Frame.csv_table float_str na_rep (assign_all df0 l))
     = S (Frame.shape0 a)
  /\ Forall (fun r => length r = 12)
       (Frame.csv_table float_str na_rep (assign_all df0 l)).
Proof.
  intros H _.
  destruct (@assign_all_keeps_shape _ _ _ l H) as (Hn & Hr & Hrect).
  destruct (csv_table_shape na_rep (assign_all df0 l)) as (Hl & Hf).
  repeat split; try assumption; [congruence|].
  replace (length (Frame.columns (assign_all df0 l))) with 12 in Hf;
    [exact Hf|].
  rewrite <- (length_map fst), Hn. reflexivity.
Qed.

End FrameFacts.

Lemma assignments_keep_the_shape_witness :
  List.map fst
    (Frame.columns
       (assign_all
          (Frame.mkFrame 2
             (Frame.frame_columns (Frame.np_empty (fun _ _ => tt) 2 12) 0
                Channels.columnNames))
          [(py "status", Frame.Scalar (Frame.CStr (py "GOOD")));
           (py "name",
            Frame.Frame1 [Frame.CStr (py "Iz"); Frame.CStr (py "Oz")]);
           (py "notch", Frame.Scalar (Frame.CInt 50))]))
  = Channels.columnNames.
Proof.
  apply (assignments_keep_the_shape (fun _ : unit => py "0.0")
           (Frame.np_empty (fun _ _ => tt) 2 12)
           (l := [(py "status", Frame.Scalar (Frame.CStr (py "GOOD")));
                  (py "name",
                   Frame.Frame1 [Frame.CStr (py "Iz"); Frame.CStr (py "Oz")]);
                  (py "notch", Frame.Scalar (Frame.CInt 50))])
           (py "n/a")); [reflexivity|].
  repeat constructor; simpl; try discriminate; tauto.
Defined.

(** ** The text of the channel table *)

(** X11: what [np.empty] finds in memory never reaches the file: for every
    subject the text of the channel table is the same whatever the array
    holds and however a float would be printed, because every one of the
    twelve columns is assigned before the table is written. *)
Theorem np_empty_never_reaches_the_table
    (float1 float2 : Type)
    (float_str1 : float1 -> pystr) (float_str2 : float2 -> pystr)
    (memory1 : nat -> nat -> float1) (memory2 : nat -> nat -> float2)
    (subID : pystr) :
  exists df1 df2,
    Channels.MetaData
      (Frame.np_empty memory1 Channels.nchannels Channels.ncolumns) subID
    = Ok df1
    /\ Channels.MetaData
         (Frame.np_empty memory2 Channels.nchannels Channels.ncolumns) subID
       = Ok df2
    /\ Channels.tsv_text float_str1 df1 = Channels.tsv_text float_str2 df2.
Proof.
  unfold Channels.MetaData, Channels.set_status.
  destruct (PyStr.eqb subID (py "01"));
    [|destruct (PyStr.eqb subID (py "02"))];
    (eexists; eexists; split; [reflexivity|]; split; [reflexivity|];
     vm_compute; reflexivity).
Qed.

(** X12: the subject enters the channel table through the comparison with
    '01' and '02' only: any two other subjects get the same table, cell
    for cell. *)
Theorem other_subjects_share_one_table
    (float : Type) (memory : nat -> nat -> float) (s1 s2 : pystr) :
  s1 <> py "01" -> s1 <> py "02" ->
  s2 <> py "01" -> s2 <> py "02" ->
  Channels.MetaData
    (Frame.np_empty memory Channels.nchannels Channels.ncolumns) s1
  = Channels.MetaData
      (Frame.np_empty memory Channels.nchannels Channels.ncolumns) s2.
Proof.
  intros H1 H2 H3 H4. apply pystr_eqb_neq in H1, H2, H3, H4.
  unfold Channels.MetaData, Channels.set_status.
  now rewrite H1, H2, H3, H4.
Qed.

Lemma other_subjects_share_one_table_witness :
  Channels.MetaData (Frame.np_empty (fun _ _ => tt) 6 12) (py "03")
  = Channels.MetaData (Frame.np_empty (fun _ _ => tt) 6 12) (py "117").
Proof.
  apply (other_subjects_share_one_table (fun _ _ => tt)
           (s1 := py "03") (s2 := py "117")); discriminate.
Defined.

Section RoundTrip.

Variable sep : char.

Lemma split_on_aux_none (cur s : pystr) :
  existsb (fun c => char_eqb c sep) s = false ->
  split_on_aux sep cur s = [rev cur ++ s].
Proof.
  revert cur; induction s as [|c s IH]; intros cur; simpl.
  - now rewrite app_nil_r.
  - intros H. apply orb_false_iff in H as [Hc Hs].
    rewrite Hc, IH by assumption. simpl. now rewrite <- app_assoc.
Qed.

Lemma split_on_join (xs : list pystr) :
  xs <> [] ->
  Forall (fun x => existsb (fun c => char_eqb c sep) x = false) xs ->
  split_on sep (join [sep] xs) = xs.
Proof.
  intros Hne H. revert Hne.
  induction H as [|x xs Hx Hxs IH]; intros Hne;
    [exfalso; now apply Hne|].
  destruct xs as [|y xs].
  - simpl. unfold split_on. now rewrite split_on_aux_none.
  - change (join [sep] (x :: y :: xs))
      with (x ++ sep :: join [sep] (y :: xs)).
    rewrite split_on_app, IH by discriminate.
    unfold split_on. now rewrite split_on_aux_none.
Qed.

Lemma split_on_lines (rows : list pystr) :
  Forall (fun r => existsb (fun c => char_eqb c sep) r = false) rows ->
  split_on sep (concat (List.map (fun r => r ++ [sep]) rows)) = rows ++ [[]].
Proof.
  induction 1 as [|r rows Hr Hrows IH]; [reflexivity|].
  simpl. rewrite <- app_assoc. simpl.
  rewrite split_on_app, IH. unfold split_on.
  now rewrite split_on_aux_none.
Qed.

End RoundTrip.

Lemma plain_field_parts (f : pystr) :
  existsb (Frame.special TAB) f = false ->
  existsb (fun c => char_eqb c TAB) f = false
  /\ existsb (fun c => char_eqb c 10%N) f = false.
Proof.
  induction f as [|c f IH]; simpl; [auto|]. intros H.
  apply orb_false_iff in H as [Hc Hf]. destruct (IH Hf) as [-> ->].
  unfold Frame.special, Frame.NEWLINE in Hc.
  apply orb_false_iff in Hc as [Hc ->].
  apply orb_false_iff in Hc as [-> _]. auto.
Qed.

Lemma join_without (c : char) (sep : pystr) (xs : list pystr) :
  existsb (fun x => char_eqb x c) sep = false ->
  Forall (fun x => existsb (fun y => char_eqb y c) x = false) xs ->
  existsb (fun x => char_eqb x c) (join sep xs) = false.
Proof.
  intros Hsep. induction 1 as [|x xs Hx Hxs IH]; [reflexivity|].
  destruct xs as [|y xs]; [exact Hx|].
  change (join sep (x :: y :: xs)) with (x ++ sep ++ join sep (y :: xs)).
  now rewrite !existsb_app, Hx, Hsep, IH.
Qed.

Lemma csv_row_plain (fields : list pystr) :
  2 <= length fields ->
  Forall (fun f => existsb (Frame.special TAB) f = false) fields ->
  Frame.csv_row TAB fields = join [TAB] fields ++ [10%N].
Proof.
  intros Hlen H. unfold Frame.csv_row.
  assert (Hmap : List.map (Frame.csv_field TAB) fields = fields).
  { clear Hlen. induction H as [|f fields Hf Hfs IH]; [reflexivity|].
    simpl. unfold Frame.csv_field at 1. now rewrite Hf, IH. }
  rewrite Hmap.
  destruct fields as [|f [|g fields]]; simpl in Hlen; try lia.
  now destruct f.
Qed.

Lemma plain_table_rows (t : list (list pystr)) :
  plain_table t = true ->
  Forall (Forall (fun f => existsb (Frame.special TAB) f = false)) t.
Proof.
  unfold plain_table. intros H. rewrite forallb_forall in H.
  apply Forall_forall. intros r Hr. specialize (H r Hr).
  rewrite forallb_forall in H. apply Forall_forall. intros f Hf.
  now apply negb_true_iff, H.
Qed.

Lemma parse_tsv_of_rows (t : list (list pystr)) :
  Forall (fun r => 2 <= length r) t ->
  Forall (Forall (fun f => existsb (Frame.special TAB) f = false)) t ->
  parse_tsv (concat (List.map (Frame.csv_row TAB) t)) = t.
Proof.
  intros Hlen Hplain. unfold parse_tsv.
  assert (Hrows : List.map (Frame.csv_row TAB) t
                  = List.map (fun l => l ++ [10%N])
                      (List.map (join [TAB]) t)).
  { rewrite map_map. clear - Hlen Hplain.
    induction Hlen as [|r t Hr Ht IH]; [reflexivity|].
    inversion Hplain; subst. simpl. f_equal; [now apply csv_row_plain|].
    now apply IH. }
  rewrite Hrows, split_on_lines, removelast_last.
  - rewrite map_map. clear Hrows.
    induction Hlen as [|r t Hr Ht IH]; [reflexivity|].
    inversion Hplain as [|? ? Hp Hps]; subst. simpl. f_equal; [|now apply IH].
    apply split_on_join; [destruct r; [simpl in Hr; lia | discriminate]|].
    eapply Forall_impl; [|exact Hp]. intros f Hf.
    now apply plain_field_parts in Hf.
  - clear Hrows Hlen.
    induction Hplain as [|r t Hp Hps IH]; constructor; [|exact IH].
    apply join_without; [reflexivity|].
    eapply Forall_impl; [|exact Hp]. intros f Hf.
    now apply plain_field_parts in Hf.
Qed.

(** X13: the text [to_csv] writes can be read back without loss: for a
    frame of at least two columns in which no column name and no printed
    cell holds a tab, a quote or a line feed, cutting the text at the line
    feeds and each line at the tabs gives back the header and the rows,
    field for field. *)
Theorem tsv_text_reads_back
    (float : Type) (float_str : float -> pystr) (na_rep : pystr)
    (df : Frame.DataFrame float) :
  2 <= length (Frame.columns df) ->
  plain_table (Frame.csv_table float_str na_rep df) = true ->
  parse_tsv (Frame.to_csv float_str TAB na_rep df)
  = Frame.csv_table float_str na_rep df.
Proof.
  intros Hcols Hplain. unfold Frame.to_csv.
  apply parse_tsv_of_rows; [|now apply plain_table_rows].
  unfold Frame.csv_table. constructor.
  - now rewrite length_map.
  - apply Forall_forall. intros r Hr. apply in_map_iff in Hr as (i & <- & _).
    unfold Frame.row_cells. now rewrite !length_map.
Qed.

Lemma tsv_text_reads_back_witness :
  match Channels.MetaData (Frame.np_empty (fun _ _ => tt) 6 12) (py "01") with
  | Ok df =>
      parse_tsv (Channels.tsv_text (fun _ : unit => py "0.0") df)
      = Frame.csv_table (fun _ : unit => py "0.0") (py "n/a") df
  | Raise _ => False
  end.
Proof.
  cbv beta iota delta [Channels.MetaData Channels.set_status bind
    Frame.DataFrame_of Frame.np_empty Frame.shape1 Frame.shape0
    Channels.columnNames Channels.nchannels Channels.ncolumns].
  simpl Nat.eqb. cbv iota. simpl PyStr.eqb. cbv iota.
  apply (tsv_text_reads_back (fun _ : unit => py "0.0") (py "n/a"));
    [vm_compute; lia | vm_compute; reflexivity].
Defined.

(** ** The text of the task document *)

Lemma escape_char_plain (c : char) :
  json_plain c = true -> Json.escape_char c = [c].
Proof.
  unfold json_plain. intros H.
  apply andb_true_iff in H as [H H92]. apply andb_true_iff in H as [H H34].
  apply andb_true_iff in H as [Hlo Hhi].
  apply N.leb_le in Hlo, Hhi.
  apply negb_true_iff, N.eqb_neq in H34, H92.
  unfold Json.escape_char.
  repeat match goal with
         | |- context [(c =? ?k)%N] =>
             destruct (N.eqb_spec c k); [lia|]
         end.
  replace ((32 <=? c) && (c <=? 126))%N with true; [reflexivity|].
  symmetry. apply andb_true_iff. split; apply N.leb_le; lia.
Qed.

Lemma escape_plain (s : pystr) :
  forallb json_plain s = true -> flat_map Json.escape_char s = s.
Proof.
  induction s as [|c s IH]; simpl; [reflexivity|]. intros H.
  apply andb_true_iff in H as [Hc Hs].
  now rewrite (escape_char_plain _ Hc), IH.
Qed.

(** X14: a task name made of printable ASCII characters other than the
    quote and the backslash is written as it is, between two quotes, at
    the one place of the document that depends on it. *)
Theorem plain_task_name_is_written_verbatim (T : pystr) :
  forallb json_plain T = true ->
  Task.json_text T = json_head ++ [34%N] ++ T ++ [34%N] ++ json_tail.
Proof.
  intros H. rewrite json_text_shape. unfold Json.encode_str.
  rewrite (escape_plain _ H), <- !app_assoc. reflexivity.
Qed.

Lemma plain_task_name_is_written_verbatim_witness :
  Task.json_text (py "FeatAttnDec")
  = json_head ++ [34%N] ++ py "FeatAttnDec" ++ [34%N] ++ json_tail.
Proof.
  apply (plain_task_name_is_written_verbatim (py "FeatAttnDec")).
  reflexivity.
Defined.

Lemma hex_digit_line_feed (d : N) : line_feeds [Json.hex_digit d] = 0.
Proof.
  unfold line_feeds, Json.hex_digit. cbn [count_occ].
  destruct (d <? 10)%N;
    match goal with
    | |- context [N.eq_dec ?x 10%N] => destruct (N.eq_dec x 10%N); [lia|]
    end; reflexivity.
Qed.

Lemma line_feeds_app (s t : pystr) :
  line_feeds (s ++ t) = line_feeds s + line_feeds t.
Proof. apply count_occ_app. Qed.

Lemma u_escape_line_feeds (n : N) : line_feeds (Json.u_escape n) = 0.
Proof.
  unfold Json.u_escape.
  change (line_feeds ([92; 117]%N
                        ++ [Json.hex_digit (n / 4096 mod 16)]
                        ++ [Json.hex_digit (n / 256 mod 16)]
                        ++ [Json.hex_digit (n / 16 mod 16)]
                        ++ [Json.hex_digit (n mod 16)]) = 0).
  now rewrite !line_feeds_app, !hex_digit_line_feed.
Qed.

Lemma escape_char_line_feeds (c : char) :
  line_feeds (Json.escape_char c) = 0.
Proof.
  unfold Json.escape_char.
  repeat match goal with
         | |- context [(c =? ?k)%N] =>
             destruct (N.eqb_spec c k); [reflexivity|]
         end.
  destruct ((32 <=? c) && (c <=? 126))%N.
  - unfold line_feeds. cbn [count_occ].
    destruct (N.eq_dec c 10); [congruence|]. reflexivity.
  - destruct (c <? 65536)%N; [apply u_escape_line_feeds|].
    now rewrite line_feeds_app, !u_escape_line_feeds.
Qed.

Lemma encode_str_line_feeds (s : pystr) :
  line_feeds (Json.encode_str s) = 0.
Proof.
  unfold Json.encode_str. rewrite !line_feeds_app.
  replace (line_feeds (flat_map Json.escape_char s)) with 0; [reflexivity|].
  induction s as [|c s IH]; simpl; [reflexivity|].
  now rewrite line_feeds_app, escape_char_line_feeds, <- IH.
Qed.

(** X15: the task name cannot change the layout of the document: whatever
    characters it holds, line feeds included, the text has 28 line feeds,
    those of the indentation. *)
Theorem task_name_adds_no_line (T : pystr) :
  count_occ N.eq_dec (Task.json_text T) 10%N = 28.
Proof.
  fold (line_feeds (Task.json_text T)).
  rewrite json_text_shape, !line_feeds_app, encode_str_line_feeds.
  reflexivity.
Qed.

(** ** Where a recording ends up *)

Lemma destination_names
    (ROOTPATH : Path) (taskname s : pystr) (a : artifact) :
  no_slash s = true ->
  no_slash taskname = true ->
  destination ROOTPATH taskname s a
  = mkPath (root ROOTPATH)
      (names ROOTPATH
         ++ [RAWDATA; sub_dir s; modality_dir a;
             filename s taskname (py "_" ++ suffix a)]).
Proof.
  intros Hns HT.
  destruct a; unfold destination, rawfile_beh, rawfile_eeg,
    metadatafile_tsv, metadatafile_json;
    rewrite !truediv_component
      by first [reflexivity
               | auto using component_sub_dir, component_filename];
    simpl; now rewrite <- !app_assoc.
Qed.

(** X16: the folder name cannot move an output elsewhere: for a subject
    read from a source file and a task name without a slash, every
    destination is exactly four levels below [ROOTPATH]:
    [02_Rawdata], [sub-<ID>], the modality directory and the file. *)
Theorem destination_is_four_levels_below_root
    (ROOTPATH fp : Path) (taskname s : pystr) (a : artifact) :
  subject_of fp = Ok s ->
  no_slash taskname = true ->
  destination ROOTPATH taskname s a
  = mkPath (root ROOTPATH)
      (names ROOTPATH
         ++ [RAWDATA; sub_dir s; modality_dir a;
             filename s taskname (py "_" ++ suffix a)]).
Proof.
  intros Hs HT. apply destination_names; [|exact HT].
  exact (subject_of_no_slash _ Hs).
Qed.

Lemma destination_is_four_levels_below_root_witness :
  destination Sample.ROOTPATH Sample.taskname (py "01") ChannelTable
  = mkPath [SLASH]
      [py "data"; py "study"; py "02_Rawdata"; py "sub-01"; py "eeg";
       py "sub-01_task-Demo_channels.tsv"].
Proof.
  apply (destination_is_four_levels_below_root Sample.ROOTPATH Sample.eeg_S1
           Sample.taskname (s := py "01") ChannelTable); reflexivity.
Defined.

(** X17: recordings of different subjects do not get in each other's way:
    when the EEG loop returns for two source files whose subjects differ,
    each destination holds the bytes of its own source, provided the
    second source is not the very file the first copy writes. *)
Theorem different_subjects_keep_their_recordings
    (ROOTPATH : Path) (taskname : pystr) (fp1 fp2 : Path) (fs fs' : FS.t)
    (s1 s2 : pystr) (b1 b2 : FS.bytes) :
  subject_of fp1 = Ok s1 ->
  subject_of fp2 = Ok s2 ->
  s1 <> s2 ->
  no_slash taskname = true ->
  fp2 <> rawfile_eeg ROOTPATH taskname s1 ->
  FS.read fs fp1 = Ok b1 ->
  FS.read fs fp2 = Ok b2 ->
  for_each (eeg_body ROOTPATH taskname) [fp1; fp2] fs = Ok fs' ->
  FS.files fs' (rawfile_eeg ROOTPATH taskname s1) = Some b1
  /\ FS.files fs' (rawfile_eeg ROOTPATH taskname s2) = Some b2.
Proof.
  intros H1 H2 Hne HT Hsrc Hr1 Hr2. simpl.
  destruct (eeg_body ROOTPATH taskname fp1 fs) as [fs1|e] eqn:E1;
    [|discriminate]. simpl.
  destruct (eeg_body ROOTPATH taskname fp2 fs1) as [fs2|e] eqn:E2;
    [|discriminate]. simpl.
  intros H; injection H as <-.
  assert (Hdst : rawfile_eeg ROOTPATH taskname s1
                 <> rawfile_eeg ROOTPATH taskname s2).
  { pose proof (destination_names ROOTPATH taskname s1 EegRecording
                  (subject_of_no_slash _ H1) HT) as D1.
    pose proof (destination_names ROOTPATH taskname s2 EegRecording
                  (subject_of_no_slash _ H2) HT) as D2.
    simpl in D1, D2. rewrite D1, D2. intros H. injection H as H.
    apply app_inv_head in H. injection H as H _. contradiction. }
  unfold eeg_body in E1, E2. rewrite H1 in E1. rewrite H2 in E2.
  cbn [bind] in E1, E2.
  fold (rawfile_eeg ROOTPATH taskname s1) in E1.
  fold (rawfile_eeg ROOTPATH taskname s2) in E2.
  assert (Hfirst : FS.files fs1 (rawfile_eeg ROOTPATH taskname s1) = Some b1)
    by (eapply copy_body_result; eassumption).
  split.
  - transitivity (FS.files fs1 (rawfile_eeg ROOTPATH taskname s1));
      [|exact Hfirst].
    eapply copy_body_frame; [exact E2 | exact Hdst].
  - eapply copy_body_result; [|exact E2].
    apply copy_body_inv in E1 as (fsm & b & _ & K & _ & _ & _ & _ & _ & ->).
    eapply read_after_mkdirs in Hr2; [|exact K].
    apply read_result in Hr2 as [Hd Hf]. apply read_result.
    split; [exact Hd|]. now rewrite files_put_other.
Qed.

Lemma different_subjects_keep_their_recordings_witness :
  exists fs',
    for_each (eeg_body Sample.ROOTPATH Sample.taskname)
      [Sample.eeg_S1; Sample.eeg_S2] Sample.source_tree = Ok fs'
    /\ FS.files fs' (rawfile_eeg Sample.ROOTPATH Sample.taskname (py "01"))
       = Some [1; 2; 3]%N
    /\ FS.files fs' (rawfile_eeg Sample.ROOTPATH Sample.taskname (py "02"))
       = Some [4; 5]%N.
Proof.
  destruct (for_each (eeg_body Sample.ROOTPATH Sample.taskname)
              [Sample.eeg_S1; Sample.eeg_S2] Sample.source_tree)
    as [fs'|e] eqn:E; [|vm_compute in E; discriminate E].
  exists fs'. split; [reflexivity|].
  apply different_subjects_keep_their_recordings
    with (fp1 := Sample.eeg_S1) (fp2 := Sample.eeg_S2)
         (fs := Sample.source_tree);
    solve [reflexivity | exact E | discriminate].
Defined.

(** ** The subject label *)

Lemma take_token_clean (s : pystr) :
  existsb is_delim (take_token s) = false.
Proof.
  induction s as [|c s IH]; simpl; [reflexivity|].
  destruct (is_delim c) eqn:E; simpl; [reflexivity|]. now rewrite E.
Qed.

(** X18: the subject label never holds an underscore, a hyphen or
    whitespace, whatever the folder is called: the characters that
    separate the fields of the output file names cannot come from it. *)
Theorem subject_label_has_no_separator (folder id : pystr) :
  subID folder = Ok id -> existsb is_delim id = false.
Proof.
  rewrite subID_first_token. unfold first_token.
  destruct (skip_delims folder) as [|c t]; [discriminate|].
  pose proof (take_token_clean (c :: t)) as Ht.
  remember (take_token (c :: t)) as tok eqn:Etok. clear Etok.
  intros H; injection H as <-.
  unfold rjust. rewrite existsb_app. apply orb_false_iff. split.
  - induction (2 - length (tl tok)); simpl; auto.
  - destruct tok as [|x tok]; [reflexivity|]. simpl in Ht.
    now apply orb_false_iff in Ht.
Qed.

Lemma subject_label_has_no_separator_witness :
  existsb is_delim (py "7b") = false.
Proof.
  apply (subject_label_has_no_separator (py "_x7b-c d")). reflexivity.
Defined.

(** X19: the task document is pure ASCII whatever the task name: a
    character outside the printable ASCII range is written as an escape,
    so the bytes of the file are the characters of the text. *)
Theorem task_document_is_ascii (T : pystr) :
  ascii_only (Task.json_text T) = true
  /\ utf8 (Task.json_text T) = Ok (Task.json_text T).
Proof.
  split; [apply json_text_ascii | apply utf8_ascii, json_text_ascii].
Qed.

(** ** The channel table as it is written *)

Lemma csv_table_reads_back
    (float : Type) (float_str : float -> pystr) (na_rep : pystr)
    (df : Frame.DataFrame float) :
  2 <= length (Frame.columns df) ->
  plain_table (Frame.csv_table float_str na_rep df) = true ->
  parse_tsv (Frame.to_csv float_str TAB na_rep df)
  = Frame.csv_table float_str na_rep df.
Proof.
  intros Hcols Hplain. unfold Frame.to_csv.
  apply parse_tsv_of_rows; [|now apply plain_table_rows].
  unfold Frame.csv_table. constructor.
  - now rewrite length_map.
  - apply Forall_forall. intros r Hr. apply in_map_iff in Hr as (i & <- & _).
    unfold Frame.row_cells. now rewrite !length_map.
Qed.

Section WrittenTable.

Variable float : Type.
Variable float_str : float -> pystr.
Variable memory : nat -> nat -> float.
Variable ROOTPATH : Path.
Variable taskname : pystr.

Let datempty := Frame.np_empty memory Channels.nchannels Channels.ncolumns.

(** What the body of the loop of step 3 leaves in the file. *)
Lemma tsv_body_written (fp : Path) (fs fs' : FS.t) (s : pystr) :
  subject_of fp = Ok s ->
  Channels.tsv_body float_str memory ROOTPATH taskname fp fs = Ok fs' ->
  exists df b,
    Channels.MetaData datempty s = Ok df
    /\ utf8 (Channels.tsv_text float_str df) = Ok b
    /\ FS.files fs' (metadatafile_tsv ROOTPATH taskname s) = Some b.
Proof.
  intros Hs. unfold Channels.tsv_body. rewrite Hs. cbn [bind].
  fold datempty.
  destruct (Channels.MetaData datempty s) as [df|e]; [|discriminate].
  cbn [bind]. intros H. apply write_text_result in H as (b & Hb & Hf).
  exists df, b. auto.
Qed.

(** When the body of the loop of step 3 returns. *)
Lemma tsv_body_returns (fp : Path) (fs : FS.t) (s : pystr) :
  subject_of fp = Ok s ->
  FS.is_dir fs (metadatafile_tsv ROOTPATH taskname s) = false ->
  FS.is_dir fs (parent (metadatafile_tsv ROOTPATH taskname s)) = true ->
  FS.is_file fs (parent (metadatafile_tsv ROOTPATH taskname s)) = false ->
  exists fs',
    Channels.tsv_body float_str memory ROOTPATH taskname fp fs = Ok fs'.
Proof.
  intros Hs Hd Hp Hf. unfold Channels.tsv_body. rewrite Hs. cbn [bind].
  destruct (tsv_bytes float_str memory s) as (df & b & Hdf & Hb).
  rewrite Hdf. cbn [bind].
  exists (FS.put (FS.put fs (metadatafile_tsv ROOTPATH taskname s) [])
            (metadatafile_tsv ROOTPATH taskname s) b).
  apply write_text_ok_utf8; assumption.
Qed.

(** Once the destination can be opened for writing, nothing else in the
    body of the loop of step 3 fails. *)
Lemma tsv_body_returns_once_opened (fp : Path) (fs fs0 : FS.t) (s : pystr) :
  subject_of fp = Ok s ->
  FS.write fs (metadatafile_tsv ROOTPATH taskname s) [] = Ok fs0 ->
  exists fs',
    Channels.tsv_body float_str memory ROOTPATH taskname fp fs = Ok fs'.
Proof.
  intros Hs H. unfold FS.write in H.
  destruct (FS.is_dir fs (metadatafile_tsv ROOTPATH taskname s)) eqn:Hd;
    [discriminate|].
  destruct (FS.is_file fs (parent (metadatafile_tsv ROOTPATH taskname s)))
    eqn:Hf; [discriminate|].
  destruct (FS.is_dir fs (parent (metadatafile_tsv ROOTPATH taskname s)))
    eqn:Hp; [|discriminate].
  now apply tsv_body_returns with (s := s).
Qed.

(** A missing cell, read back from the text of [tsv_text]. *)
Lemma missing_cell_reads_back (df : Frame.DataFrame float) (i j : nat) :
  2 <= length (Frame.columns df) ->
  plain_table (Frame.csv_table float_str (py "n/a") df) = true ->
  i < Frame.nrows df ->
  j < length (Frame.columns df) ->
  nth i (snd (nth j (Frame.columns df) ([], []))) Frame.CNaN = Frame.CNaN ->
  nth j (nth (S i) (parse_tsv (Channels.tsv_text float_str df)) []) []
  = py "n/a".
Proof.
  intros Hcols Hplain Hi Hj Hcell. unfold Channels.tsv_text.
  rewrite csv_table_reads_back by assumption.
  unfold Frame.csv_table. cbn [nth].
  set (row := fun i => List.map (Frame.cell_str float_str (py "n/a"))
                         (Frame.row_cells df i)).
  rewrite (nth_indep _ [] (row 0)) by (now rewrite length_map, length_seq).
  rewrite (map_nth row), seq_nth by assumption. simpl. unfold row.
  unfold Frame.row_cells. rewrite map_map.
  set (cell := fun col : pystr * list (Frame.cell float) =>
                 Frame.cell_str float_str (py "n/a")
                   (nth i (snd col) Frame.CNaN)).
  rewrite (nth_indep _ [] (cell ([], []))) by (now rewrite length_map).
  rewrite (map_nth cell). unfold cell. now rewrite Hcell.
Qed.

(** Builds the frame of the subject at hand and offers it, with the two
    last columns of its table, as witnesses. *)
Ltac frame_status_description :=
  match goal with
  | |- exists df status descr, ?m = Ok df /\ _ =>
      let v := eval vm_compute in m in
      match v with
      | Ok ?d =>
          exists d,
            (emitted_column 10
               (tl (Frame.csv_table float_str (py "n/a") d))),
            (emitted_column 11
               (tl (Frame.csv_table float_str (py "n/a") d)))
      end
  end.

(** C5: for every subject the text of the channel table is the header of
    the twelve column names, in order, followed by six lines of twelve
    tab-separated fields each: there is no index column, no field holds a
    tab, the first ten fields of the six rows are the template (channels
    Iz, Oz, POz, O1, O2 with type 'EEG' and reference 'ear' and otherwise
    equal cells, then TRIG with type 'TRIG' and reference 'n/a'), and
    reading the text back gives this table.  Whenever the body of the loop
    returns, the file of the subject holds the UTF-8 encoding of that
    text, and the body returns whenever the file can be opened for
    writing.  A missing cell of a frame is written 'n/a' by the call of
    the notebook. *)
Theorem channel_table_layout :
  (forall subID : pystr,
      exists df status descr,
        Channels.MetaData datempty subID = Ok df
        /\ Channels.tsv_text float_str df
           = render (channel_table status descr)
        /\ parse_tsv (Channels.tsv_text float_str df)
           = channel_table status descr
        /\ plain_table (channel_table status descr) = true
        /\ length (with_status template_rows status descr) = 6
        /\ Forall (fun r => length r = 12)
             (with_status template_rows status descr)
        /\ List.map (firstn 10) (with_status template_rows status descr)
           = template_rows)
  /\ Channels.columnNames
     = [py "name"; py "type"; py "units"; py "low_cutoff";
        py "high_cutoff"; py "reference"; py "group";
        py "sampling_frequency"; py "description"; py "notch";
        py "status"; py "Status_description"]
  /\ (forall (fp : Path) (fs fs' : FS.t) (s : pystr),
        subject_of fp = Ok s ->
        Channels.tsv_body float_str memory ROOTPATH taskname fp fs = Ok fs' ->
        exists df b,
          Channels.MetaData datempty s = Ok df
          /\ utf8 (Channels.tsv_text float_str df) = Ok b
          /\ FS.files fs' (metadatafile_tsv ROOTPATH taskname s) = Some b)
  /\ (forall (fp : Path) (fs fs0 : FS.t) (s : pystr),
        subject_of fp = Ok s ->
        FS.write fs (metadatafile_tsv ROOTPATH taskname s) [] = Ok fs0 ->
        exists fs',
          Channels.tsv_body float_str memory ROOTPATH taskname fp fs
          = Ok fs')
  /\ (forall (df : Frame.DataFrame float) (i j : nat),
        2 <= length (Frame.columns df) ->
        plain_table (Frame.csv_table float_str (py "n/a") df) = true ->
        i < Frame.nrows df ->
        j < length (Frame.columns df) ->
        nth i (snd (nth j (Frame.columns df) ([], []))) Frame.CNaN
        = Frame.CNaN ->
        nth j (nth (S i) (parse_tsv (Channels.tsv_text float_str df)) []) []
        = py "n/a").
Proof.
  split; [|split; [reflexivity|split; [|split]]].
  - intros subID. unfold datempty, Channels.MetaData, Channels.set_status.
    destruct (PyStr.eqb subID (py "01"));
      [|destruct (PyStr.eqb subID (py "02"))];
      frame_status_description; vm_compute; repeat split;
      repeat constructor.
  - exact tsv_body_written.
  - exact tsv_body_returns_once_opened.
  - exact missing_cell_reads_back.
Qed.

(** C6: the text of the table built for subject '01' is the template with
    the status column GOOD, BAD, GOOD, GOOD, GOOD, GOOD: read back, its
    second row is channel Oz and has status 'BAD', the other five rows
    have status 'GOOD'.  For every subject other than '01' and '02' the
    text is the template with six 'GOOD' and six 'n/a'.  Whenever the body
    of the loop returns, the file of the subject holds the UTF-8 encoding
    of that text. *)
Theorem channel_status_override :
  (exists df,
      Channels.MetaData datempty (py "01") = Ok df
      /\ Channels.tsv_text float_str df
         = render
             (channel_table
                [py "GOOD"; py "BAD"; py "GOOD"; py "GOOD"; py "GOOD";
                 py "GOOD"]
                [py "n/a";
                 py "Channel exessively noisy through, suspect broken electrode";
                 py "n/a"; py "n/a"; py "n/a"; py "n/a"])
      /\ emitted_column 0 (tl (parse_tsv (Channels.tsv_text float_str df)))
         = [py "Iz"; py "Oz"; py "POz"; py "O1"; py "O2"; py "TRIG"]
      /\ emitted_column 10 (tl (parse_tsv (Channels.tsv_text float_str df)))
         = [py "GOOD"; py "BAD"; py "GOOD"; py "GOOD"; py "GOOD"; py "GOOD"])
  /\ (forall subID : pystr,
        subID <> py "01" -> subID <> py "02" ->
        exists df,
          Channels.MetaData datempty subID = Ok df
          /\ Channels.tsv_text float_str df
             = render (channel_table (repeat (py "GOOD") 6)
                         (repeat (py "n/a") 6))
          /\ emitted_column 10
               (tl (parse_tsv (Channels.tsv_text float_str df)))
             = repeat (py "GOOD") 6
          /\ emitted_column 11
               (tl (parse_tsv (Channels.tsv_text float_str df)))
             = repeat (py "n/a") 6)
  /\ (forall (fp : Path) (fs fs' : FS.t),
        subject_of fp = Ok (py "01") ->
        Channels.tsv_body float_str memory ROOTPATH taskname fp fs = Ok fs' ->
        exists b,
          utf8 (render
                  (channel_table
                     [py "GOOD"; py "BAD"; py "GOOD"; py "GOOD"; py "GOOD";
                      py "GOOD"]
                     [py "n/a";
                      py "Channel exessively noisy through, suspect broken electrode";
                      py "n/a"; py "n/a"; py "n/a"; py "n/a"]))
          = Ok b
          /\ FS.files fs' (metadatafile_tsv ROOTPATH taskname (py "01"))
             = Some b)
  /\ (forall (fp : Path) (fs fs' : FS.t) (s : pystr),
        subject_of fp = Ok s ->
        s <> py "01" -> s <> py "02" ->
        Channels.tsv_body float_str memory ROOTPATH taskname fp fs = Ok fs' ->
        exists b,
          utf8 (render (channel_table (repeat (py "GOOD") 6)
                          (repeat (py "n/a") 6)))
          = Ok b
          /\ FS.files fs' (metadatafile_tsv ROOTPATH taskname s) = Some b).
Proof.
  assert (first : exists df,
      Channels.MetaData datempty (py "01") = Ok df
      /\ Channels.tsv_text float_str df
         = render
             (channel_table
                [py "GOOD"; py "BAD"; py "GOOD"; py "GOOD"; py "GOOD";
                 py "GOOD"]
                [py "n/a";
                 py "Channel exessively noisy through, suspect broken electrode";
                 py "n/a"; py "n/a"; py "n/a"; py "n/a"])
      /\ emitted_column 0 (tl (parse_tsv (Channels.tsv_text float_str df)))
         = [py "Iz"; py "Oz"; py "POz"; py "O1"; py "O2"; py "TRIG"]
      /\ emitted_column 10 (tl (parse_tsv (Channels.tsv_text float_str df)))
         = [py "GOOD"; py "BAD"; py "GOOD"; py "GOOD"; py "GOOD"; py "GOOD"]).
  { eexists. split; [reflexivity|]. vm_compute. repeat split. }
  assert (others : forall subID : pystr,
        subID <> py "01" -> subID <> py "02" ->
        exists df,
          Channels.MetaData datempty subID = Ok df
          /\ Channels.tsv_text float_str df
             = render (channel_table (repeat (py "GOOD") 6)
                         (repeat (py "n/a") 6))
          /\ emitted_column 10
               (tl (parse_tsv (Channels.tsv_text float_str df)))
             = repeat (py "GOOD") 6
          /\ emitted_column 11
               (tl (parse_tsv (Channels.tsv_text float_str df)))
             = repeat (py "n/a") 6).
  { intros subID H01 H02. apply pystr_eqb_neq in H01, H02.
    unfold datempty, Channels.MetaData, Channels.set_status.
    rewrite H01, H02.
    eexists. split; [reflexivity|]. vm_compute. repeat split. }
  split; [exact first|]. split; [exact others|]. split.
  - intros fp fs fs' Hs H.
    destruct (tsv_body_written _ _ Hs H) as (df & b & Hdf & Hb & Hf).
    destruct first as (df' & Hdf' & Htext & _).
    rewrite Hdf' in Hdf. injection Hdf as <-.
    exists b. now rewrite <- Htext.
  - intros fp fs fs' s Hs H01 H02 H.
    destruct (tsv_body_written _ _ Hs H) as (df & b & Hdf & Hb & Hf).
    destruct (others s H01 H02) as (df' & Hdf' & Htext & _).
    rewrite Hdf' in Hdf. injection Hdf as <-.
    exists b. now rewrite <- Htext.
Qed.

End WrittenTable.

Lemma channel_table_layout_witness :
  (exists fs' df b,
      Channels.tsv_body (fun _ : unit => py "0.0") (fun _ _ => tt)
        Sample.ROOTPATH Sample.taskname Sample.eeg_S1 Sample.rerun_tree
      = Ok fs'
      /\ Channels.MetaData (Frame.np_empty (fun _ _ => tt) 6 12) (py "01")
         = Ok df
      /\ utf8 (Channels.tsv_text (fun _ : unit => py "0.0") df) = Ok b
      /\ FS.files fs'
           (metadatafile_tsv Sample.ROOTPATH Sample.taskname (py "01"))
         = Some b)
  /\ nth 0
       (nth 2
          (parse_tsv
             (Channels.tsv_text (fun _ : unit => py "0.0")
                (Frame.mkFrame 2
                   [(py "a", [Frame.CInt 1; Frame.CNaN]);
                    (py "b", [Frame.CStr (py "x"); Frame.CStr (py "y")])])))
          []) []
     = py "n/a".
Proof.
  destruct (channel_table_layout (fun _ : unit => py "0.0") (fun _ _ => tt)
              Sample.ROOTPATH Sample.taskname)
    as (_ & _ & Hwritten & Hreturns & Hmissing).
  split.
  - destruct (Hreturns Sample.eeg_S1 Sample.rerun_tree
                (FS.put Sample.rerun_tree
                   (metadatafile_tsv Sample.ROOTPATH Sample.taskname
                      (py "01")) [])
                (py "01"))
      as [fs' H]; try reflexivity.
    destruct (Hwritten Sample.eeg_S1 Sample.rerun_tree fs' (py "01"))
      as (df & b & Hdf & Hb & Hf); [reflexivity | exact H |].
    exists fs', df, b. auto.
  - apply (Hmissing
             (Frame.mkFrame 2
                [(py "a", [Frame.CInt 1; Frame.CNaN]);
                 (py "b", [Frame.CStr (py "x"); Frame.CStr (py "y")])])
             1 0); simpl; solve [reflexivity | lia].
Defined.

Lemma channel_status_override_witness :
  exists df,
    Channels.MetaData (Frame.np_empty (fun _ _ => tt) 6 12) (py "03") = Ok df
    /\ Channels.tsv_text (fun _ : unit => py "0.0") df
       = render (channel_table (repeat (py "GOOD") 6) (repeat (py "n/a") 6))
    /\ emitted_column 10
         (tl (parse_tsv (Channels.tsv_text (fun _ : unit => py "0.0") df)))
       = repeat (py "GOOD") 6
    /\ emitted_column 11
         (tl (parse_tsv (Channels.tsv_text (fun _ : unit => py "0.0") df)))
       = repeat (py "n/a") 6.
Proof.
  apply (proj1 (proj2 (channel_status_override (fun _ : unit => py "0.0")
                         (fun _ _ => tt) Sample.ROOTPATH Sample.taskname))
           (py "03")); discriminate.
Defined.
